(** * majdi_excel: comparison of two spreadsheets

    A shallow embedding of [main.py].  Python values are an inductive type,
    a [dict] is an insertion-ordered association list without repeated keys,
    a table is a list of dicts, and exceptions are carried by a [result]
    type.  Code that touches the [out/] directory or the terminal is written
    in a state-and-exception monad over a [world]. *)

From Stdlib Require Import ZArith String Ascii List.
From stdpp Require Import gmap strings list fin_maps sorting pretty.

Open Scope string_scope.
Open Scope list_scope.

(** ** Cell values *)

(** The values a cell holds after extraction: [csv.DictReader] yields [str]
    (and [None] for a short row), openpyxl yields [None], [bool], [int] and
    [str].  Floating point and date cells are outside this model. *)
Inductive value : Type :=
  | VNone
  | VBool (b : bool)
  | VInt (n : Z)
  | VStr (s : string).

(** Python's [==] on these values.  [bool] is a subclass of [int], so
    [True == 1]; a [str] never equals a number. *)
Definition py_eq (x y : value) : bool :=
  match x, y with
  | VNone, VNone => true
  | VBool a, VBool b => Bool.eqb a b
  | VBool a, VInt n => Z.eqb (Z.b2z a) n
  | VInt n, VBool b => Z.eqb n (Z.b2z b)
  | VInt n, VInt m => Z.eqb n m
  | VStr s, VStr t => String.eqb s t
  | _, _ => false
  end.

(** [x != y] *)
Definition py_ne (x y : value) : bool := negb (py_eq x y).

(** [int(b)] for a [bool] *)
Definition int_of_bool (b : bool) : nat := if b then 1 else 0.

(** [str(n)] for a non-negative [int] *)
Definition str_of_nat (n : nat) : string := pretty n.

(** What [csv.writer] puts in a field: [None] becomes the empty string, a
    [str] is kept, anything else goes through [str()]. *)
Definition csv_field (v : value) : string :=
  match v with
  | VNone => ""
  | VBool true => "True"
  | VBool false => "False"
  | VInt n => pretty n
  | VStr s => s
  end.

(** ** Exceptions *)

Inductive exn : Type :=
  | IndexError
  | KeyError (key : string)
  | ValueError (msg : string)
  | FileNotFoundError (path : string).

Inductive result (A : Type) : Type :=
  | Ok (a : A)
  | Raise (e : exn).
Arguments Ok {A} a.
Arguments Raise {A} e.

#[global] Instance result_ret : MRet result := λ A a, Ok a.
#[global] Instance result_bind : MBind result := λ A B f m,
  match m with
  | Ok a => f a
  | Raise e => Raise e
  end.

(** A [for] loop whose body may raise: the accumulator is threaded through
    the elements in order and the first exception ends the loop. *)
Fixpoint for_each {A S : Type} (body : S → A → result S) (l : list A) (s : S)
  : result S :=
  match l with
  | [] => Ok s
  | x :: l' => s' ← body s x; for_each body l' s'
  end.

(** [l[i]] *)
Definition list_getitem {A : Type} (l : list A) (i : nat) : result A :=
  match l !! i with
  | Some x => Ok x
  | None => Raise IndexError
  end.

(** ** Dictionaries and tables *)

(** A Python [dict] with [str] keys: its items in insertion order, no key
    twice. *)
Record dict : Type := Dict {
  dict_items : list (string * value);
  dict_wf : bool_decide (NoDup dict_items.*1)
}.

(** [list(d.keys())] *)
Definition dict_keys (d : dict) : list string := (dict_items d).*1.

Fixpoint assoc (k : string) (items : list (string * value)) : option value :=
  match items with
  | [] => None
  | (k', v) :: items' => if String.eqb k k' then Some v else assoc k items'
  end.

(** [d.get(k)] *)
Definition dict_get (d : dict) (k : string) : option value :=
  assoc k (dict_items d).

(** [d[k]] *)
Definition dict_getitem (d : dict) (k : string) : result value :=
  match dict_get d k with
  | Some v => Ok v
  | None => Raise (KeyError k)
  end.

(** [a == b] on dicts, as CPython decides it: the sizes agree and every item
    of [a] has its key in [b] with an equal value.  Insertion order plays no
    part. *)
Definition dict_eqb (a b : dict) : bool :=
  Nat.eqb (length (dict_items a)) (length (dict_items b))
  && forallb (λ kv, match dict_get b kv.1 with
                    | Some bv => py_eq kv.2 bv
                    | None => false
                    end) (dict_items a).

(** [x in l] for a list of dicts *)
Definition list_contains (x : dict) (l : list dict) : bool :=
  existsb (λ e, dict_eqb x e) l.

Definition table : Type := list dict.
Definition DataPair : Type := (table * table)%type.

(** ** Set-difference extractor *)

Definition _extract_difference (file_left file_right : table) : table :=
  foldl (λ difference row,
           if negb (list_contains row file_right)
           then difference ++ [row]
           else difference)
        [] file_left.

(** ** Positional pair extractor *)

Definition _extract_common_by_first_column (file_left file_right : table)
  : result DataPair :=
  row0 ← list_getitem file_left 0;
  first_column ← list_getitem (dict_keys row0) 0;
  for_each (λ (common : DataPair) (rows : dict * dict),
              let '(common_left, common_right) := common in
              let '(row_left, row_right) := rows in
              l ← dict_getitem row_left first_column;
              r ← dict_getitem row_right first_column;
              if py_eq l r
              then Ok (common_left ++ [row_left], common_right ++ [row_right])
              else Ok (common_left, common_right))
           (zip file_left file_right) ([], []).

(** ** Headers of the delta table *)

Definition _build_column_headers (columns : list string) : list string :=
  foldl (λ headers column, headers ++ [column; column; "Delta_" +:+ column])
        [] columns.

(** ** The world: the [out/] directory and the terminal *)

(** A CSV file is the rows [csv.reader] gets back from it, a worksheet the
    rows appended to it. *)
Definition csv_file : Type := list (list string).

Record sheet : Type := Sheet {
  sheet_title : string;
  sheet_rows : list (list string)
}.

Definition workbook : Type := list sheet.

(** The part of [out/] the program can see: the files [out/*.csv], by path,
    and [out/out.xlsx]. *)
Record directory : Type := Directory {
  csv_files : gmap string csv_file;
  out_xlsx : option workbook
}.

(** [out_dir] is [None] as long as [out/] does not exist; [stdout] holds the
    lines printed so far. *)
Record world : Type := World {
  out_dir : option directory;
  stdout : list string
}.

Definition io (A : Type) : Type := world → result A * world.

#[global] Instance io_ret : MRet io := λ A a w, (Ok a, w).
#[global] Instance io_bind : MBind io := λ A B f m w,
  match m w with
  | (Ok a, w') => f a w'
  | (Raise e, w') => (Raise e, w')
  end.

(** A pure computation, with its exception if it raises one. *)
Definition lift {A : Type} (r : result A) : io A := λ w, (r, w).

(** A [for] loop with effects. *)
Fixpoint io_for_each {A S : Type} (body : S → A → io S) (l : list A) (s : S)
  : io S :=
  match l with
  | [] => mret s
  | x :: l' => s' ← body s x; io_for_each body l' s'
  end.

(** [try: body except ValueError as e: handler(e)]; any other exception goes
    on to the caller. *)
Definition try_except_ValueError {A : Type} (body : io A)
    (handler : string → io A) : io A := λ w,
  match body w with
  | (Raise (ValueError msg), w') => handler msg w'
  | other => other
  end.

Definition print (line : string) : io unit := λ w,
  (Ok (), World (out_dir w) (stdout w ++ [line])).

(** [Path("out").mkdir(parents=True, exist_ok=True)] *)
Definition create_out_dir_if_not_exists : io unit := λ w,
  match out_dir w with
  | Some _ => (Ok (), w)
  | None => (Ok (), World (Some (Directory ∅ None)) (stdout w))
  end.

(** [open(file_name, "w")] for a path [out/*.csv]: the file is created, or
    emptied when it is there already. *)
Definition open_w (file_name : string) : io unit := λ w,
  match out_dir w with
  | Some d =>
      (Ok (), World (Some (Directory (<[file_name := []]> (csv_files d))
                                     (out_xlsx d)))
                    (stdout w))
  | None => (Raise (FileNotFoundError file_name), w)
  end.

(** [csv.writer(f).writerow(row)] on the file opened as [file_name]. *)
Definition writerow (file_name : string) (row : list value) : io unit := λ w,
  match out_dir w with
  | Some d =>
      (Ok (), World (Some (Directory
                             (alter (λ rows, rows ++ [csv_field <$> row])
                                    file_name (csv_files d))
                             (out_xlsx d)))
                    (stdout w))
  | None => (Raise (FileNotFoundError file_name), w)
  end.

(** ** Writing a table *)

(** [csv.DictWriter._dict_to_list]: a row with a key outside the field names
    is refused; a missing field is written as the empty string.  The message
    of the standard library goes on with the offending names, which are left
    out here. *)
Definition _dict_to_list (fieldnames : list string) (rowdict : dict)
  : result (list value) :=
  if forallb (λ k, bool_decide (k ∈ fieldnames)) (dict_keys rowdict)
  then Ok ((λ key, default (VStr "") (dict_get rowdict key)) <$> fieldnames)
  else Raise (ValueError "dict contains fields not in fieldnames").

Definition _write_csv (file_name : string) (data : table) : io unit :=
  _ ← open_w file_name;
  row0 ← lift (list_getitem data 0);
  let fieldnames := dict_keys row0 in
  _ ← writerow file_name (VStr <$> fieldnames);
  io_for_each (λ (_ : unit) (row : dict),
                 fields ← lift (_dict_to_list fieldnames row);
                 writerow file_name fields)
              data ().

Definition make_tab_1_file_a (files : DataPair) : io unit :=
  let '(file_a, _) := files in
  _write_csv "out/tab_1.csv" file_a.

Definition make_tab_2_file_b (files : DataPair) : io unit :=
  let '(_, file_b) := files in
  _write_csv "out/tab_2.csv" file_b.

Definition make_tab_3_in_file_a_but_not_in_b (files : DataPair) : io unit :=
  let '(file_a, file_b) := files in
  let difference := _extract_difference file_a file_b in
  _write_csv "out/tab_3.csv" difference.

Definition make_tab_4_in_file_b_but_not_in_a (files : DataPair) : io unit :=
  let '(file_a, file_b) := files in
  let difference := _extract_difference file_b file_a in
  _write_csv "out/tab_4.csv" difference.

(** ** Delta table *)

(** [defaultdict(int)]: a missing key reads as [0]. *)
Definition dd_get (total : gmap string nat) (column : string) : nat :=
  default 0 (total !! column).

(** One pass of the inner loop of [make_tab_5_analysis]: three cells are
    appended to [merged_row] and the counter of [column] goes up by
    [is_different]. *)
Definition merge_column (row_a row_b : dict)
    (acc : list value * gmap string nat) (column : string)
  : result (list value * gmap string nat) :=
  let '(merged_row, total_differences) := acc in
  row_a_value ← dict_getitem row_a column;
  row_b_value ← dict_getitem row_b column;
  let is_different := int_of_bool (py_ne row_a_value row_b_value) in
  Ok (merged_row
        ++ [row_a_value; row_b_value; VStr (str_of_nat is_different)],
      <[column := dd_get total_differences column + is_different]>
        total_differences).

(** The last row: per column two empty cells and the counter. *)
Definition totals_row (columns : list string) (total : gmap string nat)
  : list value :=
  foldl (λ row column,
           row ++ [VStr ""; VStr ""; VStr (str_of_nat (dd_get total column))])
        [] columns.

Definition make_tab_5_analysis (files : DataPair) : io unit :=
  let '(file_a, file_b) := files in
  common ← lift (_extract_common_by_first_column file_a file_b);
  row0 ← lift (list_getitem common.1 0);
  let columns := dict_keys row0 in
  let headers := _build_column_headers columns in
  _ ← open_w "out/tab_5.csv";
  _ ← writerow "out/tab_5.csv" (VStr <$> headers);
  total_differences ←
    io_for_each (λ (total_differences : gmap string nat) (rows : dict * dict),
                   let '(row_a, row_b) := rows in
                   acc ← lift (for_each (merge_column row_a row_b) columns
                                        ([], total_differences));
                   _ ← writerow "out/tab_5.csv" acc.1;
                   mret acc.2)
                (zip common.1 common.2) ∅;
  writerow "out/tab_5.csv" (totals_row columns total_differences).

(** ** Merging the CSV files into one workbook *)

(** [sorted(Path("out/").glob("*.csv"))]: the paths of one directory, in the
    order of their names, byte by byte. *)
Definition sorted_csv_paths (d : directory) : list string :=
  merge_sort String.le (map_to_list (csv_files d)).*1.

(** The body of the loop of [csv_tab_files_to_excel_sheets] as far as the
    workbook goes: the first file fills the sheet the workbook is born with,
    every other file a sheet created at the end. *)
Definition add_sheet (csvs : gmap string csv_file) (wb : workbook)
    (entry : nat * string) : workbook :=
  let '(i, csv_file) := entry in
  let title := "Onglet " +:+ pretty (i + 1)%nat in
  let rows := default [] (csvs !! csv_file) in
  if (i =? 0)%nat
  then match wb with
       | ws :: others => Sheet title (sheet_rows ws ++ rows) :: others
       | [] => []
       end
  else wb ++ [Sheet title rows].

Definition csv_tab_files_to_excel_sheets : io unit := λ w,
  match out_dir w with
  | Some d =>
      let paths := sorted_csv_paths d in
      let wb := foldl (add_sheet (csv_files d)) [Sheet "Sheet" []]
                      (imap (λ i p, (i, p)) paths) in
      let remaining := foldl (λ csvs p, delete p csvs) (csv_files d) paths in
      (Ok (), World (Some (Directory remaining (Some wb))) (stdout w))
  | None => (Raise (FileNotFoundError "out/out.xlsx"), w)
  end.

(** ** Paths *)

(** A [Path] is the string it prints as. *)
Fixpoint has_char (c : ascii) (s : string) : bool :=
  match s with
  | EmptyString => false
  | String c' s' => if Ascii.eqb c c' then true else has_char c s'
  end.

(** [path.name]: what follows the last slash. *)
Fixpoint path_name (p : string) : string :=
  match p with
  | EmptyString => EmptyString
  | String c rest =>
      if has_char "/" rest then path_name rest
      else if Ascii.eqb c "/" then rest else p
  end.

(** [name[name.rfind("."):]], if [name] has a dot. *)
Fixpoint from_last_dot (name : string) : option string :=
  match name with
  | EmptyString => None
  | String c rest =>
      match from_last_dot rest with
      | Some tail => Some tail
      | None => if Ascii.eqb c "." then Some name else None
      end
  end.

(** [path.suffix]: with [i] the place of the last dot of the name, the name
    from [i] on when [0 < i < len(name) - 1], and the empty string
    otherwise. *)
Definition path_suffix (p : string) : string :=
  let name := path_name p in
  match from_last_dot name with
  | Some tail =>
      if (1 <? String.length tail)%nat
         && (String.length tail <? String.length name)%nat
      then tail else ""
  | None => ""
  end.

Definition ascii_lower (c : ascii) : ascii :=
  let n := nat_of_ascii c in
  if (65 <=? n)%nat && (n <=? 90)%nat then ascii_of_nat (n + 32) else c.

(** [s.lower()], on the letters A to Z. *)
Fixpoint str_lower (s : string) : string :=
  match s with
  | EmptyString => EmptyString
  | String c s' => String (ascii_lower c) (str_lower s')
  end.

(** [s.replace(".", "")] *)
Fixpoint remove_dots (s : string) : string :=
  match s with
  | EmptyString => EmptyString
  | String c s' =>
      if Ascii.eqb c "." then remove_dots s' else String c (remove_dots s')
  end.

Definition POSSIBLE_SUFFIXES : list string := [".xlsx"; ".csv"].

Definition FilesPair : Type := (string * string)%type.

(** ** The program, over what it asks of its platform *)

Section Program.

(** [Path(arg).expanduser().resolve()] and [path.is_file()] *)
Variable resolve : string → string.
Variable is_file : string → bool.

(** The two readers, which hand the file to openpyxl and to
    [csv.DictReader]. *)
Variable extract_data_from_xlsx : string → table.
Variable extract_data_from_csv : string → table.

(** The order in which a [set] of strings is iterated; it depends on the
    hash seed of the process. *)
Variable set_iter : gset string → list string.

Definition extract_files_from_args (argv : list string) : list string :=
  foldl (λ files arg,
           let file := resolve arg in
           if negb (is_file file) then files
           else if negb (bool_decide
                           (str_lower (path_suffix file) ∈ POSSIBLE_SUFFIXES))
                then files
                else files ++ [file])
        [] argv.

(** [globals()[name]], for the names that start with [extract_data_from_]
    and take a path. *)
Definition globals_getitem (name : string) : result (string → table) :=
  if String.eqb name "extract_data_from_xlsx" then Ok extract_data_from_xlsx
  else if String.eqb name "extract_data_from_csv" then Ok extract_data_from_csv
  else Raise (KeyError name).

Definition extract (file : string) : result table :=
  let suffix := remove_dots (path_suffix file) in
  extraction_function ← globals_getitem ("extract_data_from_" +:+ suffix);
  let spreadsheet_as_dict := extraction_function file in
  Ok spreadsheet_as_dict.

Definition extract_data_from_files (files : FilesPair) : result DataPair :=
  let '(file_a, file_b) := files in
  a ← extract file_a;
  b ← extract file_b;
  Ok (a, b).

(** [a.keys() ^ b.keys()] *)
Definition keys_symmetric_difference (a b : dict) : gset string :=
  let ka : gset string := list_to_set (dict_keys a) in
  let kb : gset string := list_to_set (dict_keys b) in
  (ka ∖ kb) ∪ (kb ∖ ka).

Definition mismatch_message (diff : gset string) : string :=
  "Différence [" +:+ pretty (size diff) +:+ " colonne(s)]: "
    +:+ String.concat ", " (set_iter diff).

Definition check_table_structure_integrity (files : DataPair)
  : result unit :=
  let '(file_a, file_b) := files in
  row_a ← list_getitem file_a 0;
  row_b ← list_getitem file_b 0;
  let diff := keys_symmetric_difference row_a row_b in
  if bool_decide (diff ≠ ∅)
  then Raise (ValueError (mismatch_message diff))
  else Ok ().

Definition usage_message : string :=
  "Erreur: 2 fichiers requis en entrée ("
    +:+ String.concat ", " POSSIBLE_SUFFIXES +:+ ")".

Definition main (argv : list string) : io Z :=
  match extract_files_from_args argv with
  | [file_a; file_b] =>
      files ← lift (extract_data_from_files (file_a, file_b));
      returned ← try_except_ValueError
                   (_ ← lift (check_table_structure_integrity files);
                    mret None)
                   (λ e, _ ← print e; mret (Some 1%Z));
      match returned with
      | Some status => mret status
      | None =>
          _ ← create_out_dir_if_not_exists;
          _ ← make_tab_1_file_a files;
          _ ← make_tab_2_file_b files;
          _ ← make_tab_3_in_file_a_but_not_in_b files;
          _ ← make_tab_4_in_file_b_but_not_in_a files;
          _ ← make_tab_5_analysis files;
          _ ← csv_tab_files_to_excel_sheets;
          mret 0%Z
      end
  | _ =>
      _ ← print usage_message;
      mret 2%Z
  end.

(** [sys.exit(main(sys.argv[1:]))]: an exception nobody catches ends the
    process with status 1. *)
Definition exit_status (r : result Z) : Z :=
  match r with
  | Ok n => n
  | Raise _ => 1%Z
  end.

End Program.

(** ** The readers and the row generator *)

(** [str(v)] *)
Definition py_str (v : value) : string :=
  match v with
  | VNone => "None"
  | VBool true => "True"
  | VBool false => "False"
  | VInt n => pretty n
  | VStr s => s
  end.

(** The items of a dict after [d[k] = v]: a key that is there keeps its
    place, a new key goes to the end. *)
Fixpoint items_set (k : string) (v : value) (items : list (string * value))
  : list (string * value) :=
  match items with
  | [] => [(k, v)]
  | (k', v') :: rest =>
      if String.eqb k k' then (k', v) :: rest
      else (k', v') :: items_set k v rest
  end.

Lemma items_set_keys k v items :
  (items_set k v items).*1
  = if bool_decide (k ∈ items.*1) then items.*1 else items.*1 ++ [k].
Proof.
  induction items as [ | [k' v'] items IH]; [done | ].
  cbn [items_set]. destruct (String.eqb_spec k k') as [-> | Hne].
  - rewrite !fmap_cons. cbn [fst].
    by rewrite bool_decide_eq_true_2 by left.
  - rewrite !fmap_cons, IH. cbn [fst].
    destruct (bool_decide (k ∈ items.*1)) eqn:E.
    + rewrite bool_decide_eq_true_2; [done | ].
      right. by apply bool_decide_eq_true_1 in E.
    + rewrite bool_decide_eq_false_2; [done | ].
      apply bool_decide_eq_false_1 in E.
      by intros [? | ?]%elem_of_cons.
Qed.

Lemma items_set_NoDup k v items :
  NoDup items.*1 → NoDup (items_set k v items).*1.
Proof.
  intros H. rewrite items_set_keys. case_bool_decide as Hk; [done | ].
  apply NoDup_app. split; [done | ]. split; [ | apply NoDup_singleton].
  intros x Hx ->%list_elem_of_singleton. done.
Qed.

(** The empty dict, [{}] *)
Definition empty_dict : dict := Dict [] I.

(** [d[k] = v] *)
Definition dict_setitem (d : dict) (k : string) (v : value) : dict :=
  Dict (items_set k v (dict_items d))
       (bool_decide_pack _
          (items_set_NoDup k v _ (bool_decide_unpack _ (dict_wf d)))).

(** A worksheet as openpyxl iterates it: its rows, each the values of its
    cells. *)
Definition worksheet : Type := list (list value).

(** The loop over the cells of one row of [extract_data_from_xlsx]. *)
Definition xlsx_row_content (columns : list string) (row : list value)
  : result dict :=
  for_each (λ (row_content : dict) (cell : nat * value),
              let '(j, cell_value) := cell in
              column ← list_getitem columns j;
              Ok (dict_setitem row_content column cell_value))
           (imap (λ j v, (j, v)) row) empty_dict.

(** [extract_data_from_xlsx], on the active sheet that
    [openpyxl.load_workbook(file)] gives. *)
Definition extract_data_from_xlsx (load_active_sheet : string → worksheet)
    (file : string) : result table :=
  let ws := load_active_sheet file in
  acc ← for_each (λ (acc : table * list string) (entry : nat * list value),
                    let '(rows, columns) := acc in
                    let '(i, row) := entry in
                    if (i =? 0)%nat
                    then Ok (rows, py_str <$> row)
                    else row_content ← xlsx_row_content columns row;
                         Ok (rows ++ [row_content], columns))
                 (imap (λ i row, (i, row)) ws) ([], []);
  Ok acc.1.

(** [dict_[k]] for a dict whose values are lists *)
Fixpoint lists_get (k : string) (dict_ : list (string * list value))
  : option (list value) :=
  match dict_ with
  | [] => None
  | (k', l) :: rest => if String.eqb k k' then Some l else lists_get k rest
  end.

Definition lists_getitem (dict_ : list (string * list value)) (k : string)
  : result (list value) :=
  match lists_get k dict_ with
  | Some l => Ok l
  | None => Raise (KeyError k)
  end.

(** The body of the loop of [_dict_of_lists_as_rows]: the row of index [i]. *)
Definition row_of_lists (dict_ : list (string * list value))
    (columns : list string) (i : nat) : result dict :=
  for_each (λ (row : dict) (column : string),
              values ← lists_getitem dict_ column;
              v ← list_getitem values i;
              Ok (dict_setitem row column v))
           columns empty_dict.

(** The rows a generator yields, one after the other, until it is exhausted
    or raises. *)
Fixpoint yield_each {A B : Type} (body : A → result B) (l : list A)
  : list B * option exn :=
  match l with
  | [] => ([], None)
  | x :: l' =>
      match body x with
      | Ok y => let '(ys, e) := yield_each body l' in (y :: ys, e)
      | Raise e => ([], Some e)
      end
  end.

(** [_dict_of_lists_as_rows]: the rows the generator yields and the
    exception that ends it, if one does.  The dict of lists is its items in
    insertion order. *)
Definition _dict_of_lists_as_rows (dict_ : list (string * list value))
  : list dict * option exn :=
  let columns := dict_.*1 in
  match (column0 ← list_getitem columns 0;
         values ← lists_getitem dict_ column0;
         Ok (length values)) with
  | Ok nb_rows => yield_each (row_of_lists dict_ columns) (seq 0 nb_rows)
  | Raise e => ([], Some e)
  end.

(** ** What the extractors are meant to compute *)

(** Two rows are equal across all column values: they have the same columns
    and agree, by [==], in each of them. *)
Definition rows_equal (a b : dict) : Prop :=
  (∀ k, k ∈ dict_keys a ↔ k ∈ dict_keys b)
  ∧ ∀ k va vb, dict_get a k = Some va → dict_get b k = Some vb →
               py_eq va vb = true.

(** Every row of the table has exactly the columns [columns], in any order. *)
Definition has_columns (columns : list string) (t : table) : Prop :=
  Forall (λ row, ∀ k, k ∈ dict_keys row ↔ k ∈ columns) t.

(** The value of a row in a column. *)
Definition cell (row : dict) (column : string) : value :=
  default VNone (dict_get row column).

(** The two rows of a pair agree, by [==], in [column]. *)
Definition keys_agree (column : string) (rows : dict * dict) : bool :=
  py_eq (cell rows.1 column) (cell rows.2 column).

(** The pairs the delta table is built from: rows at the same index whose
    values in [column] are equal. *)
Definition aligned_pairs (column : string) (A B : table)
  : list (dict * dict) :=
  List.filter (keys_agree column) (zip A B).

(** The header of the delta table: three labels per column. *)
Definition header_spec (columns : list string) : list string :=
  columns ≫= λ c, [c; c; "Delta_" +:+ c].

(** The two rows of a pair differ, by [!=], in [column]. *)
Definition differs (column : string) (rows : dict * dict) : bool :=
  py_ne (cell rows.1 column) (cell rows.2 column).

(** A delta row: per column the value of A, the value of B and the flag. *)
Definition delta_row_spec (columns : list string) (rows : dict * dict)
  : list value :=
  columns ≫= λ c, [cell rows.1 c; cell rows.2 c;
                   VStr (if differs c rows then "1" else "0")].

(** The number of pairs that differ in [column]. *)
Definition count_differing (column : string) (pairs : list (dict * dict))
  : nat :=
  length (List.filter (differs column) pairs).

(** The totals row: per column two empty cells and the count. *)
Definition totals_spec (columns : list string) (pairs : list (dict * dict))
  : list value :=
  columns ≫= λ c, [VStr ""; VStr ""; VStr (pretty (count_differing c pairs))].

(** The rows of the delta table as they are handed to the CSV writer. *)
Definition delta_table_spec (columns : list string)
    (pairs : list (dict * dict)) : list (list value) :=
  (VStr <$> header_spec columns)
    :: (delta_row_spec columns <$> pairs) ++ [totals_spec columns pairs].

(** The rows as the CSV file holds them. *)
Definition csv_rows (rows : list (list value)) : csv_file :=
  (λ row : list value, csv_field <$> row) <$> rows.

(** The world in which [out/] is [d] with the file [file_name] holding
    [content]. *)
Definition with_csv (w : world) (d : directory) (file_name : string)
    (content : csv_file) : world :=
  World (Some (Directory (<[file_name := content]> (csv_files d))
                         (out_xlsx d)))
        (stdout w).

(** The counters after the columns of one pair have been compared. *)
Definition bump (columns : list string) (total : gmap string nat)
    (rows : dict * dict) : gmap string nat :=
  foldl (λ t c, <[c := dd_get t c + int_of_bool (differs c rows)]> t)
        total columns.

(** ** What a run leaves behind *)

(** The world in which [out/] is [d] after the files [writes] have been
    written, in that order. *)
Definition put_all (w : world) (d : directory)
    (writes : list (string * csv_file)) : world :=
  World (Some (Directory (foldl (λ m kv, <[kv.1 := kv.2]> m)
                                (csv_files d) writes)
                         (out_xlsx d)))
        (stdout w).

(** How the loop of [_write_csv] ends and what the file holds then. *)
Fixpoint written_rows (fieldnames : list string) (data : table)
    (content : csv_file) : result unit * csv_file :=
  match data with
  | [] => (Ok (), content)
  | row :: data' =>
      match _dict_to_list fieldnames row with
      | Ok fields =>
          written_rows fieldnames data' (content ++ [csv_field <$> fields])
      | Raise e => (Raise e, content)
      end
  end.

(** How [_write_csv] ends and what it leaves in its file. *)
Definition write_csv_outcome (data : table) : result unit * csv_file :=
  match data with
  | [] => (Raise IndexError, [])
  | row0 :: _ => written_rows (dict_keys row0) data [dict_keys row0]
  end.

(** How the outer loop of [make_tab_5_analysis] ends and what the file holds
    then. *)
Fixpoint delta_rows_outcome (columns : list string)
    (pairs : list (dict * dict)) (total : gmap string nat)
    (content : csv_file) : result (gmap string nat) * csv_file :=
  match pairs with
  | [] => (Ok total, content)
  | (row_a, row_b) :: pairs' =>
      match for_each (merge_column row_a row_b) columns ([], total) with
      | Ok acc =>
          delta_rows_outcome columns pairs' acc.2
                             (content ++ [csv_field <$> acc.1])
      | Raise e => (Raise e, content)
      end
  end.

(** How [make_tab_5_analysis] ends and what it leaves in its file, if it
    gets as far as opening it. *)
Definition tab_5_outcome (files : DataPair) : result unit * option csv_file :=
  match _extract_common_by_first_column files.1 files.2 with
  | Raise e => (Raise e, None)
  | Ok common =>
      match common.1 with
      | [] => (Raise IndexError, None)
      | row0 :: _ =>
          let columns := dict_keys row0 in
          match delta_rows_outcome columns (zip common.1 common.2) ∅
                                   [_build_column_headers columns] with
          | (Ok total, content) =>
              (Ok (),
               Some (content ++ [csv_field <$> totals_row columns total]))
          | (Raise e, content) => (Raise e, Some content)
          end
      end
  end.

(** The outcome of a step, as the list of the files it wrote. *)
Definition file_outcome (file_name : string)
    (o : result unit * option csv_file)
  : result unit * list (string * csv_file) :=
  (o.1, match o.2 with Some content => [(file_name, content)] | None => [] end).

(** Two steps in a row: the second runs if the first did not raise. *)
Definition and_then (first next : result unit * list (string * csv_file))
  : result unit * list (string * csv_file) :=
  match first.1 with
  | Ok _ => (next.1, first.2 ++ next.2)
  | Raise e => (Raise e, first.2)
  end.

(** The five tables of a run, as far as it gets. *)
Definition tabs_outcome (files : DataPair)
  : result unit * list (string * csv_file) :=
  let write name data :=
    file_outcome name (let o := write_csv_outcome data in (o.1, Some o.2)) in
  and_then (write "out/tab_1.csv" files.1)
    (and_then (write "out/tab_2.csv" files.2)
       (and_then (write "out/tab_3.csv"
                        (_extract_difference files.1 files.2))
          (and_then (write "out/tab_4.csv"
                           (_extract_difference files.2 files.1))
             (file_outcome "out/tab_5.csv" (tab_5_outcome files))))).

(** An action that ends as [o] says and writes the files [o] lists, whatever
    [out/] held before. *)
Definition runs_as (m : io unit)
    (o : result unit * list (string * csv_file)) : Prop :=
  ∀ w d, out_dir w = Some d → m w = (o.1, put_all w d o.2).


(** The workbook made of the CSV files [csvs], one sheet per file in the
    order of the paths, when there is at least one file. *)
Definition workbook_of (csvs : gmap string csv_file) : workbook :=
  imap (λ i p, Sheet ("Onglet " +:+ pretty (i + 1)%nat) (default [] (csvs !! p)))
       (merge_sort String.le (map_to_list csvs).*1).

(** The CSV files after [writes] have been written over [csvs]. *)
Definition written_over (csvs : gmap string csv_file)
    (writes : list (string * csv_file)) : gmap string csv_file :=
  foldl (λ m kv, <[kv.1 := kv.2]> m) csvs writes.

(** How the run ends once the tables have passed the structure check, and
    the world it leaves: an exception of one of the five steps with the files
    written so far, or status 0 with the workbook and no CSV file. *)
Definition pipeline_outcome (files : DataPair) (w : world)
  : result Z * world :=
  let d := default (Directory ∅ None) (out_dir w) in
  let o := tabs_outcome files in
  match o.1 with
  | Ok _ =>
      (Ok 0%Z,
       World (Some (Directory
                      ∅ (Some (workbook_of (written_over (csv_files d) o.2)))))
             (stdout w))
  | Raise e => (Raise e, put_all w d o.2)
  end.

(** The paths of the five tables. *)
Definition tab_paths : list string :=
  ["out/tab_1.csv"; "out/tab_2.csv"; "out/tab_3.csv"; "out/tab_4.csv";
   "out/tab_5.csv"].


(** What [csv.DictWriter] writes for a row: per field name the value the row
    has for it, and the empty string if it has none. *)
Definition row_fields (fieldnames : list string) (row : dict) : list string :=
  (λ key, csv_field (default (VStr "") (dict_get row key))) <$> fieldnames.

(** The CSV file of a table: the keys of its first row, then a line per
    row. *)
Definition table_csv (data : table) : csv_file :=
  match data with
  | [] => []
  | row0 :: _ => dict_keys row0 :: (row_fields (dict_keys row0) <$> data)
  end.

(** ** Example tables *)

Definition row_1x : dict := Dict [("id", VInt 1); ("v", VStr "x")] I.
Definition row_2y : dict := Dict [("id", VInt 2); ("v", VStr "y")] I.
Definition row_2z : dict := Dict [("id", VInt 2); ("v", VStr "z")] I.

Definition example_A : table := [row_1x; row_2y].
Definition example_B : table := [row_1x; row_2z].

(** Tables with the single column [id]. *)
Definition example_ids (ids : list Z) : table :=
  (λ n, Dict [("id", VInt n)] I) <$> ids.

Definition row_id_name : dict := Dict [("id", VInt 1); ("name", VStr "n")] I.
Definition row_id_email : dict := Dict [("id", VInt 1); ("email", VStr "e")] I.

(** A reader for a directory with the two files [a.csv] and [b.csv], whose
    columns differ. *)
Definition read_example (path : string) : table :=
  if String.eqb path "a.csv" then [row_id_name] else [row_id_email].

(** [row_1x] with its columns the other way round, a row without [id] and a
    row with a column of its own. *)
Definition row_x1 : dict := Dict [("v", VStr "x"); ("id", VInt 1)] I.
Definition row_only_v : dict := Dict [("v", VStr "x")] I.

(** A reader for a directory where [a.csv] holds [example_A] and any other
    file [example_B]. *)
Definition read_A_B (path : string) : table :=
  if String.eqb path "a.csv" then example_A else example_B.


(** Dicts of lists: one whose second list is longer, one whose second list
    is shorter than the first. *)
Definition example_lists : list (string * list value) :=
  [("A", [VInt 1; VInt 2]); ("B", [VInt 3; VInt 4; VInt 5])].
Definition example_short_lists : list (string * list value) :=
  [("A", [VInt 1; VInt 2]); ("B", [VInt 3])].

(** An [out/] directory that is there and empty. *)
Definition empty_out : directory := Directory ∅ None.
Definition fresh_world : world := World (Some empty_out) [].

(** * Properties *)

(** ** Values and dictionaries *)

Lemma py_eq_refl v : py_eq v v = true.
Proof.
  destruct v as [ | b | n | s]; simpl; try done.
  - by destruct b.
  - apply Z.eqb_refl.
  - apply String.eqb_refl.
Qed.

Lemma py_eq_sym v w : py_eq v w = py_eq w v.
Proof.
  destruct v, w; simpl; try done.
  - by destruct b, b0.
  - apply Z.eqb_sym.
  - apply Z.eqb_sym.
  - apply Z.eqb_sym.
  - apply String.eqb_sym.
Qed.

Lemma dict_keys_NoDup d : NoDup (dict_keys d).
Proof. exact (bool_decide_unpack _ (dict_wf d)). Qed.

Lemma assoc_Some_elem k v items : assoc k items = Some v → (k, v) ∈ items.
Proof.
  induction items as [ | [k' v'] items IH]; simpl; [done | ].
  destruct (String.eqb_spec k k') as [-> | Hne].
  - intros [= ->]. left.
  - intros H. right. by apply IH.
Qed.

Lemma assoc_NoDup k v items :
  NoDup items.*1 → (k, v) ∈ items → assoc k items = Some v.
Proof.
  induction items as [ | [k' v'] items IH]; simpl.
  - intros _ H. by apply elem_of_nil in H.
  - intros Hnd H. apply NoDup_cons in Hnd as [Hnotin Hnd].
    destruct (String.eqb_spec k k') as [-> | Hne].
    + apply elem_of_cons in H as [[= ->] | H]; [done | ].
      exfalso. apply Hnotin. apply list_elem_of_fmap. by exists (k', v).
    + apply elem_of_cons in H as [[= -> ->] | H]; [done | ]. by apply IH.
Qed.

Lemma assoc_is_Some k items : k ∈ items.*1 ↔ is_Some (assoc k items).
Proof.
  induction items as [ | [k' v'] items IH]; simpl.
  - split; [intros H; by apply elem_of_nil in H | intros [? [=]]].
  - destruct (String.eqb_spec k k') as [-> | Hne].
    + split; [by eexists | left].
    + rewrite elem_of_cons, IH. split; [intros [? | ?]; done | by right].
Qed.

Lemma dict_get_is_Some d k : k ∈ dict_keys d ↔ is_Some (dict_get d k).
Proof. apply assoc_is_Some. Qed.

Lemma dict_get_item d k v : dict_get d k = Some v ↔ (k, v) ∈ dict_items d.
Proof.
  split; [apply assoc_Some_elem | apply assoc_NoDup, dict_keys_NoDup].
Qed.

Lemma dict_getitem_cell d k :
  k ∈ dict_keys d → dict_getitem d k = Ok (cell d k).
Proof.
  intros [v Hv]%dict_get_is_Some. unfold dict_getitem, cell. by rewrite Hv.
Qed.

Lemma dict_eqb_spec a b : dict_eqb a b = true ↔ rows_equal a b.
Proof.
  unfold dict_eqb, rows_equal.
  rewrite andb_true_iff, Nat.eqb_eq, forallb_forall. split.
  - intros [Hlen Hall].
    assert (Hsub : ∀ k, k ∈ dict_keys a → k ∈ dict_keys b).
    { intros k [[k' v] [-> Hin]]%list_elem_of_fmap.
      apply list_elem_of_In, Hall in Hin. simpl in *.
      apply dict_get_is_Some. destruct (dict_get b k'); [by eexists | done]. }
    split.
    + intros k. split; [apply Hsub | ].
      assert (Hperm : dict_keys a ≡ₚ dict_keys b).
      { apply submseteq_length_Permutation.
        - apply NoDup_submseteq; [apply dict_keys_NoDup | done].
        - unfold dict_keys. rewrite !length_fmap. lia. }
      intros Hk. by rewrite Hperm.
    + intros k va vb Ha Hb.
      apply dict_get_item, list_elem_of_In, Hall in Ha. simpl in Ha.
      by rewrite Hb in Ha.
  - intros [Hkeys Hvals]. split.
    + assert (Hperm : dict_keys a ≡ₚ dict_keys b).
      { apply NoDup_Permutation; [apply dict_keys_NoDup.. | done]. }
      apply Permutation_length in Hperm. unfold dict_keys in Hperm.
      by rewrite !length_fmap in Hperm.
    + intros [k v] Hin%list_elem_of_In. simpl.
      assert (Hk : k ∈ dict_keys b).
      { apply Hkeys. apply list_elem_of_fmap. by exists (k, v). }
      apply dict_get_is_Some in Hk as [bv Hbv]. rewrite Hbv.
      eapply Hvals; [ | done]. by apply dict_get_item.
Qed.

Lemma rows_equal_refl a : rows_equal a a.
Proof.
  split; [done | ]. intros k va vb Ha Hb.
  rewrite Ha in Hb. injection Hb as <-. apply py_eq_refl.
Qed.

Lemma dict_eqb_refl a : dict_eqb a a = true.
Proof. apply dict_eqb_spec, rows_equal_refl. Qed.

Lemma list_contains_spec row t :
  list_contains row t = true ↔ ∃ r, r ∈ t ∧ rows_equal row r.
Proof.
  unfold list_contains. rewrite existsb_exists.
  split; intros (r & Hin & Heq); exists r.
  - split; [by apply list_elem_of_In | by apply dict_eqb_spec].
  - split; [by apply list_elem_of_In | by apply dict_eqb_spec].
Qed.

(** ** Set-difference extractor *)

Lemma foldl_append_if {A : Type} (keep : A → bool) (l acc : list A) :
  foldl (λ acc x, if keep x then acc ++ [x] else acc) acc l
  = acc ++ List.filter keep l.
Proof.
  revert acc. induction l as [ | x l IH]; intros acc; simpl.
  - by rewrite app_nil_r.
  - rewrite IH. destruct (keep x); [ | done]. by rewrite <- app_assoc.
Qed.

Lemma extract_difference_filter L R :
  _extract_difference L R
  = List.filter (λ row, negb (list_contains row R)) L.
Proof.
  unfold _extract_difference.
  by rewrite (foldl_append_if (λ row, negb (list_contains row R))).
Qed.

(** C4: the set-difference extractor keeps, in the order of [L], exactly the
    rows of [L] to which no row of [R] is equal across all column values;
    on the two tables of the specification it returns the row with [id] 2 of
    the left table, in both directions. *)
Theorem extract_difference_correct (L R : table) :
  (∀ row, list_contains row R = true ↔ ∃ r, r ∈ R ∧ rows_equal row r)
  ∧ _extract_difference L R
    = List.filter (λ row, negb (list_contains row R)) L
  ∧ (∀ row, row ∈ _extract_difference L R
            ↔ row ∈ L ∧ ∀ r, r ∈ R → ¬ rows_equal row r)
  ∧ _extract_difference L R `sublist_of` L
  ∧ _extract_difference example_A example_B = [row_2y]
  ∧ _extract_difference example_B example_A = [row_2z].
Proof.
  split; [intros row; apply list_contains_spec | ].
  split; [apply extract_difference_filter | ].
  split; [ | split; [ | split; reflexivity]].
  - intros row. rewrite extract_difference_filter.
    rewrite list_elem_of_In, filter_In, <- list_elem_of_In.
    rewrite negb_true_iff, <- not_true_iff_false, list_contains_spec.
    split; intros [Hin Hno]; (split; [done | ]).
    + intros r Hr Heq. apply Hno. by exists r.
    + intros (r & Hr & Heq). by apply (Hno r).
  - rewrite extract_difference_filter.
    induction L as [ | row L IH]; simpl; [done | ].
    destruct (negb (list_contains row R));
      [by apply sublist_skip | by apply sublist_cons].
Qed.

Lemma filter_none {A : Type} (keep : A → bool) (l : list A) :
  (∀ x, x ∈ l → keep x = false) → List.filter keep l = [].
Proof.
  induction l as [ | x l IH]; intros H; simpl; [done | ].
  rewrite H by apply list_elem_of_here.
  apply IH. intros y Hy. apply H. by apply list_elem_of_further.
Qed.

(** C8: a table has no row that is absent from itself. *)
Theorem extract_difference_self (A : table) : _extract_difference A A = [].
Proof.
  rewrite extract_difference_filter. apply filter_none.
  intros row Hin. apply negb_false_iff, list_contains_spec.
  exists row. split; [done | apply rows_equal_refl].
Qed.

(** ** Positional pair extractor *)

Lemma has_columns_elem columns t row k :
  has_columns columns t → row ∈ t → k ∈ columns → k ∈ dict_keys row.
Proof.
  intros Hcols Hrow Hk.
  by apply (proj1 (Forall_forall _ _) Hcols row Hrow).
Qed.

Lemma common_loop (c : string) (L R common_left common_right : table) :
  Forall (λ row, c ∈ dict_keys row) L →
  Forall (λ row, c ∈ dict_keys row) R →
  for_each (λ (common : DataPair) (rows : dict * dict),
              let '(common_left, common_right) := common in
              let '(row_left, row_right) := rows in
              l ← dict_getitem row_left c;
              r ← dict_getitem row_right c;
              if py_eq l r
              then Ok (common_left ++ [row_left], common_right ++ [row_right])
              else Ok (common_left, common_right))
           (zip L R) (common_left, common_right)
  = Ok (common_left ++ (aligned_pairs c L R).*1,
        common_right ++ (aligned_pairs c L R).*2).
Proof.
  unfold aligned_pairs. intros HL. revert R common_left common_right.
  induction HL as [ | l L Hl HL IH]; intros R cl cr HR; simpl.
  - by rewrite !app_nil_r.
  - destruct HR as [ | r R Hr HR]; simpl; [by rewrite !app_nil_r | ].
    rewrite (dict_getitem_cell l c Hl), (dict_getitem_cell r c Hr). simpl.
    change (py_eq (cell l c) (cell r c)) with (keys_agree c (l, r)).
    destruct (keys_agree c (l, r)); simpl.
    + rewrite IH by done. by rewrite <- !app_assoc.
    + by apply IH.
Qed.

Lemma extract_common_run (L R : table) (row0 : dict) (c : string)
    (columns : list string) :
  L !! 0%nat = Some row0 →
  dict_keys row0 = c :: columns →
  has_columns (c :: columns) L →
  has_columns (c :: columns) R →
  _extract_common_by_first_column L R
  = Ok ((aligned_pairs c L R).*1, (aligned_pairs c L R).*2).
Proof.
  intros H0 Hkeys HL HR.
  destruct L as [ | row L']; [done | ]. injection H0 as ->.
  unfold _extract_common_by_first_column, list_getitem. simpl.
  rewrite Hkeys. simpl.
  rewrite (common_loop c (row0 :: L') R); [done | | ].
  - eapply Forall_impl; [exact HL | ]. intros row Hrow. apply Hrow. left.
  - eapply Forall_impl; [exact HR | ]. intros row Hrow. apply Hrow. left.
Qed.

(** C3: for two tables with the columns of the first row of [L], whose first
    column is [c], the positional pair extractor returns the two sides of the
    pairs of [zip L R] that agree in [c], in their order: the rows are paired
    index by index up to the length of the shorter table, a pair is kept
    exactly when its two values in [c] are equal, and the two sequences
    returned have the same length and come from the same pairs. *)
Theorem extract_common_correct (L R : table) (row0 : dict)
    (c : string) (columns : list string) :
  L !! 0%nat = Some row0 →
  dict_keys row0 = c :: columns →
  has_columns (c :: columns) L →
  has_columns (c :: columns) R →
  let pairs := aligned_pairs c L R in
  _extract_common_by_first_column L R = Ok (pairs.*1, pairs.*2)
  ∧ length pairs.*1 = length pairs.*2
  ∧ length (zip L R) = length L `min` length R
  ∧ (∀ i l r, zip L R !! i = Some (l, r) ↔ L !! i = Some l ∧ R !! i = Some r)
  ∧ (∀ l r, (l, r) ∈ pairs
            ↔ (l, r) ∈ zip L R ∧ py_eq (cell l c) (cell r c) = true)
  ∧ _extract_common_by_first_column (example_ids [1; 2; 3]%Z)
                                    (example_ids [1; 9; 3]%Z)
    = Ok (example_ids [1; 3]%Z, example_ids [1; 3]%Z).
Proof.
  intros H0 Hkeys HL HR pairs.
  split; [ | split; [ | split; [ | split; [ | split]]]].
  - by eapply extract_common_run.
  - by rewrite !length_fmap.
  - apply length_zip.
  - intros i l r. rewrite lookup_zip_with_Some. split.
    + by intros (x & y & [= -> ->] & Hx & Hy).
    + intros [Hl Hr]. by exists l, r.
  - intros l r. unfold pairs, aligned_pairs.
    by rewrite list_elem_of_In, filter_In, <- list_elem_of_In.
  - reflexivity.
Qed.

(** ** Delta table *)

Lemma foldl_append_bind {A B : Type} (f : A → list B) (l : list A)
    (acc : list B) :
  foldl (λ acc x, acc ++ f x) acc l = acc ++ (l ≫= f).
Proof.
  revert acc. induction l as [ | x l IH]; intros acc; simpl.
  - by rewrite app_nil_r.
  - rewrite IH. by rewrite <- app_assoc.
Qed.

Lemma build_column_headers_spec columns :
  _build_column_headers columns = header_spec columns.
Proof.
  unfold _build_column_headers, header_spec.
  by rewrite (foldl_append_bind (λ c, [c; c; "Delta_" +:+ c])).
Qed.

Lemma merge_columns_run columns row_a row_b merged total :
  Forall (λ c, c ∈ dict_keys row_a ∧ c ∈ dict_keys row_b) columns →
  for_each (merge_column row_a row_b) columns (merged, total)
  = Ok (merged ++ delta_row_spec columns (row_a, row_b),
        bump columns total (row_a, row_b)).
Proof.
  intros H. revert merged total.
  induction H as [ | c columns [Ha Hb] H IH]; intros merged total; simpl.
  - by rewrite app_nil_r.
  - rewrite (dict_getitem_cell _ _ Ha), (dict_getitem_cell _ _ Hb). simpl.
    rewrite IH. unfold delta_row_spec. rewrite <- app_assoc.
    unfold differs. simpl.
    by destruct (py_ne (cell row_a c) (cell row_b c)).
Qed.

Lemma dd_get_bump columns total rows c :
  NoDup columns →
  dd_get (bump columns total rows) c
  = (dd_get total c
     + if bool_decide (c ∈ columns) then int_of_bool (differs c rows) else 0)%nat.
Proof.
  unfold bump. intros Hnd. revert total.
  induction Hnd as [ | x columns Hx Hnd IH]; intros total; cbn [foldl].
  - rewrite bool_decide_eq_false_2 by apply not_elem_of_nil. lia.
  - rewrite IH. unfold dd_get at 1. destruct (decide (c = x)) as [-> | Hne].
    + rewrite lookup_insert_eq. cbn [default].
      rewrite (bool_decide_eq_false_2 _ Hx).
      rewrite bool_decide_eq_true_2 by left. unfold id. lia.
    + rewrite lookup_insert_ne by done. fold (dd_get total c).
      destruct (bool_decide (c ∈ columns)) eqn:E.
      * rewrite bool_decide_eq_true_2; [done | ].
        right. by apply bool_decide_eq_true_1 in E.
      * rewrite bool_decide_eq_false_2; [done | ].
        apply bool_decide_eq_false_1 in E.
        intros [? | ?]%elem_of_cons; done.
Qed.

Lemma dd_get_totals columns pairs total c :
  NoDup columns → c ∈ columns →
  dd_get (foldl (bump columns) total pairs) c
  = (dd_get total c + count_differing c pairs)%nat.
Proof.
  intros Hnd Hc. revert total.
  induction pairs as [ | rows pairs IH]; intros total; simpl.
  - unfold count_differing. simpl. lia.
  - rewrite IH, dd_get_bump by done. rewrite bool_decide_eq_true_2 by done.
    unfold count_differing. simpl.
    destruct (differs c rows); simpl; lia.
Qed.

Lemma totals_row_spec columns pairs :
  NoDup columns →
  totals_row columns (foldl (bump columns) ∅ pairs)
  = totals_spec columns pairs.
Proof.
  intros Hnd. unfold totals_row, totals_spec.
  rewrite (foldl_append_bind
             (λ c, [VStr ""; VStr "";
                    VStr (str_of_nat
                            (dd_get (foldl (bump columns) ∅ pairs) c))])).
  simpl. apply Forall_bind_ext, Forall_forall. intros c Hc.
  rewrite dd_get_totals by done. unfold dd_get at 1.
  by rewrite lookup_empty.
Qed.

Lemma open_w_run w d file_name :
  out_dir w = Some d → open_w file_name w = (Ok (), with_csv w d file_name []).
Proof. intros H. unfold open_w, with_csv. by rewrite H. Qed.

Lemma writerow_run w d file_name content row :
  writerow file_name row (with_csv w d file_name content)
  = (Ok (), with_csv w d file_name (content ++ [csv_field <$> row])).
Proof. unfold writerow, with_csv. simpl. by rewrite alter_insert_eq. Qed.

Lemma delta_loop columns pairs total w d content :
  Forall (λ rows : dict * dict,
            Forall (λ c, c ∈ dict_keys rows.1 ∧ c ∈ dict_keys rows.2) columns)
         pairs →
  io_for_each (λ (total_differences : gmap string nat) (rows : dict * dict),
                 let '(row_a, row_b) := rows in
                 acc ← lift (for_each (merge_column row_a row_b) columns
                                      ([], total_differences));
                 _ ← writerow "out/tab_5.csv" acc.1;
                 mret acc.2)
              pairs total (with_csv w d "out/tab_5.csv" content)
  = (Ok (foldl (bump columns) total pairs),
     with_csv w d "out/tab_5.csv"
              (content ++ csv_rows (delta_row_spec columns <$> pairs))).
Proof.
  intros H. revert total content.
  induction H as [ | [row_a row_b] pairs Hrows H IH]; intros total content.
  - simpl. by rewrite app_nil_r.
  - cbn [io_for_each]. unfold mbind at 1, io_bind at 1.
    unfold mbind at 1, io_bind at 1, lift.
    rewrite (merge_columns_run _ _ _ _ _ Hrows).
    unfold mbind at 1, io_bind at 1. rewrite writerow_run.
    unfold mret, io_ret. rewrite IH. simpl.
    unfold csv_rows. by rewrite <- app_assoc.
Qed.

Lemma elem_of_zip {A B : Type} (l : list A) (k : list B) x y :
  (x, y) ∈ zip l k → x ∈ l ∧ y ∈ k.
Proof.
  intros H. split.
  - by apply (elem_of_zip_l _ _ _ _ H).
  - by apply (elem_of_zip_r _ _ _ _ H).
Qed.

Lemma aligned_pairs_columns A B row0 c first_a first_b :
  has_columns (dict_keys row0) A →
  has_columns (dict_keys row0) B →
  aligned_pairs c A B !! 0%nat = Some (first_a, first_b) →
  Forall (λ rows : dict * dict,
            Forall (λ k, k ∈ dict_keys rows.1 ∧ k ∈ dict_keys rows.2)
                   (dict_keys first_a))
         (aligned_pairs c A B).
Proof.
  intros HA HB Hfirst.
  assert (Hin : ∀ l r, (l, r) ∈ aligned_pairs c A B → l ∈ A ∧ r ∈ B).
  { intros l r Hlr. apply elem_of_zip. unfold aligned_pairs in Hlr.
    by apply list_elem_of_In, filter_In, proj1, list_elem_of_In in Hlr. }
  assert (Hfa : first_a ∈ A).
  { eapply Hin, list_elem_of_lookup. by exists 0%nat. }
  apply Forall_forall. intros [l r] Hlr. apply Forall_forall. intros k Hk.
  destruct (Hin l r Hlr) as [Hl Hr]. simpl.
  assert (Hk0 : k ∈ dict_keys row0).
  { by apply (proj1 (Forall_forall _ _) HA first_a Hfa). }
  split.
  - by apply (has_columns_elem (dict_keys row0) A).
  - by apply (has_columns_elem (dict_keys row0) B).
Qed.

Lemma make_tab_5_analysis_run A B row0 c rest first_a first_b w d :
  A !! 0%nat = Some row0 →
  dict_keys row0 = c :: rest →
  has_columns (dict_keys row0) A →
  has_columns (dict_keys row0) B →
  aligned_pairs c A B !! 0%nat = Some (first_a, first_b) →
  out_dir w = Some d →
  make_tab_5_analysis (A, B) w
  = (Ok (),
     with_csv w d "out/tab_5.csv"
              (csv_rows (delta_table_spec (dict_keys first_a)
                                          (aligned_pairs c A B)))).
Proof.
  intros H0 Hkeys HA HB Hfirst Hout.
  unfold make_tab_5_analysis.
  unfold mbind at 1, io_bind at 1, lift at 1.
  rewrite (extract_common_run A B row0 c rest H0 Hkeys)
    by (by rewrite <- Hkeys).
  unfold mbind at 1, io_bind at 1, lift at 1, list_getitem.
  cbn [fst snd]. rewrite list_lookup_fmap, Hfirst. cbn [fmap option_fmap option_map fst].
  unfold mbind at 1, io_bind at 1. rewrite (open_w_run w d _ Hout).
  unfold mbind at 1, io_bind at 1. rewrite writerow_run.
  unfold mbind at 1, io_bind at 1. rewrite zip_fst_snd.
  rewrite (delta_loop _ _ _ _ _ _
             (aligned_pairs_columns A B row0 c first_a first_b HA HB Hfirst)).
  rewrite writerow_run.
  rewrite totals_row_spec by apply dict_keys_NoDup.
  rewrite build_column_headers_spec.
  unfold delta_table_spec, csv_rows. f_equal. f_equal.
  simpl. by rewrite fmap_app.
Qed.

Lemma has_columns_same_keys columns (t : table) :
  Forall (λ row, dict_keys row = columns) t → has_columns columns t.
Proof.
  unfold has_columns. intros H. eapply Forall_impl; [exact H | ].
  by intros row ->.
Qed.

Lemma same_columns_length (a b : dict) :
  (∀ k, k ∈ dict_keys a ↔ k ∈ dict_keys b) →
  length (dict_keys a) = length (dict_keys b).
Proof.
  intros H. apply Permutation_length.
  apply NoDup_Permutation; [apply dict_keys_NoDup.. | done].
Qed.

Lemma length_bind_3 {A B : Type} (f : A → list B) (l : list A) :
  (∀ x, length (f x) = 3%nat) → length (l ≫= f) = (3 * length l)%nat.
Proof.
  intros H. induction l as [ | x l IH]; [done | ].
  rewrite bind_cons, length_app, H, IH. simpl. lia.
Qed.



(** C10: under the same conditions every row of the delta table, the header,
    the delta rows and the totals row, has three times as many cells as the
    tables have columns. *)
Theorem delta_table_rectangular (A B : table) (row0 first_a first_b : dict)
    (c : string) (rest : list string) (w : world) (d : directory) :
  A !! 0%nat = Some row0 →
  dict_keys row0 = c :: rest →
  has_columns (dict_keys row0) A →
  has_columns (dict_keys row0) B →
  aligned_pairs c A B !! 0%nat = Some (first_a, first_b) →
  out_dir w = Some d →
  ∃ content : csv_file,
    make_tab_5_analysis (A, B) w
    = (Ok (), with_csv w d "out/tab_5.csv" content)
    ∧ length content = (length (aligned_pairs c A B) + 2)%nat
    ∧ Forall (λ row, length row = (3 * length (dict_keys row0))%nat) content.
Proof.
  intros H0 Hkeys HA HB Hfirst Hout.
  eexists. split; [by eapply make_tab_5_analysis_run | ].
  assert (Hlen : length (dict_keys first_a) = length (dict_keys row0)).
  { apply same_columns_length.
    apply (proj1 (Forall_forall _ _) HA first_a).
    assert (Hin : (first_a, first_b) ∈ aligned_pairs c A B).
    { apply list_elem_of_lookup. by exists 0%nat. }
    unfold aligned_pairs in Hin.
    apply list_elem_of_In, filter_In, proj1, list_elem_of_In in Hin.
    by apply elem_of_zip in Hin as [? ?]. }
  rewrite <- Hlen. unfold csv_rows, delta_table_spec. split.
  - simpl. rewrite !length_fmap, length_app, length_fmap. simpl. lia.
  - apply Forall_fmap, Forall_cons. split; [ | apply Forall_app; split].
    + simpl. rewrite !length_fmap. by apply length_bind_3.
    + apply Forall_fmap, Forall_forall. intros rows _. simpl.
      rewrite length_fmap. by apply length_bind_3.
    + apply Forall_singleton. simpl.
      rewrite length_fmap. by apply length_bind_3.
Qed.

(** ** Structure validator and command line *)

Section ProgramProperties.

Variable resolve : string → string.
Variable is_file : string → bool.
Variable extract_data_from_xlsx : string → table.
Variable extract_data_from_csv : string → table.
Variable set_iter : gset string → list string.

Local Abbreviation run :=
  (main resolve is_file extract_data_from_xlsx extract_data_from_csv set_iter).
Local Abbreviation check := (check_table_structure_integrity set_iter).

Lemma keys_symmetric_difference_spec a b k :
  k ∈ keys_symmetric_difference a b
  ↔ (k ∈ dict_keys a ∧ k ∉ dict_keys b)
    ∨ (k ∈ dict_keys b ∧ k ∉ dict_keys a).
Proof.
  unfold keys_symmetric_difference.
  rewrite elem_of_union, !elem_of_difference, !elem_of_list_to_set.
  done.
Qed.

Lemma check_same_columns row_a rest_a row_b rest_b :
  keys_symmetric_difference row_a row_b = ∅ →
  check (row_a :: rest_a, row_b :: rest_b)
  = Ok ().
Proof.
  intros H. unfold check_table_structure_integrity. simpl.
  by rewrite bool_decide_eq_false_2 by (by intros ?).
Qed.

Lemma check_different_columns row_a rest_a row_b rest_b :
  keys_symmetric_difference row_a row_b ≠ ∅ →
  check (row_a :: rest_a, row_b :: rest_b)
  = Raise (ValueError (mismatch_message
                         set_iter (keys_symmetric_difference row_a row_b))).
Proof.
  intros H. unfold check_table_structure_integrity. simpl.
  by rewrite bool_decide_eq_true_2.
Qed.

(** C5: for two tables that have a first row, the structure validator
    takes the symmetric difference of the columns of the two first rows;
    if it is empty the validator returns without an exception; if not it
    raises an error whose message gives the number of the columns in it
    and their names, and the run prints that message and returns 1 with
    the [out/] directory as it was. *)
Theorem structure_validator (argv : list string) (path_a path_b : string)
    (row_a row_b : dict) (rest_a rest_b : table) (w : world) :
  (∀ s, set_iter s ≡ₚ elements s) →
  extract_files_from_args resolve is_file argv = [path_a; path_b] →
  extract_data_from_files extract_data_from_xlsx extract_data_from_csv
                          (path_a, path_b)
  = Ok (row_a :: rest_a, row_b :: rest_b) →
  let files := (row_a :: rest_a, row_b :: rest_b) in
  let diff := keys_symmetric_difference row_a row_b in
  (∀ k, k ∈ diff ↔ (k ∈ dict_keys row_a ∧ k ∉ dict_keys row_b)
                   ∨ (k ∈ dict_keys row_b ∧ k ∉ dict_keys row_a))
  ∧ (diff = ∅ → check files = Ok ())
  ∧ (diff ≠ ∅ →
     ∃ names : list string,
       names ≡ₚ elements diff
       ∧ length names = size diff
       ∧ let msg := "Différence [" +:+ pretty (size diff)
                      +:+ " colonne(s)]: " +:+ String.concat ", " names in
         check files = Raise (ValueError msg)
         ∧ run argv w = (Ok 1%Z, World (out_dir w) (stdout w ++ [msg]))
         ∧ exit_status (run argv w).1 = 1%Z).
Proof.
  intros Hperm Hargs Hdata files diff.
  split; [intros k; apply keys_symmetric_difference_spec | ].
  split; [apply check_same_columns | ].
  intros Hdiff. exists (set_iter diff).
  split; [apply Hperm | ].
  split; [by rewrite (Permutation_length (Hperm diff)) | ].
  assert (Hcheck : check files
                   = Raise (ValueError (mismatch_message set_iter diff)))
    by by apply check_different_columns.
  assert (Hmain : run argv w
                  = (Ok 1%Z,
                     World (out_dir w)
                           (stdout w ++ [mismatch_message set_iter diff]))).
  { unfold main. rewrite Hargs.
    unfold mbind at 1, io_bind at 1, lift at 1. rewrite Hdata.
    unfold mbind at 1, io_bind at 1, try_except_ValueError.
    unfold mbind at 1, io_bind at 1, lift at 1. fold files.
    rewrite Hcheck. done. }
  simpl. split; [exact Hcheck | ]. split; [exact Hmain | ].
  by rewrite Hmain.
Qed.

(** The arguments kept are the resolved paths that are files and whose suffix,
    in lower case, is a possible one; their order is that of the arguments. *)
Lemma extract_files_from_args_acc (argv acc : list string) :
  foldl (λ files arg,
           let file := resolve arg in
           if negb (is_file file) then files
           else if negb (bool_decide
                           (str_lower (path_suffix file) ∈ POSSIBLE_SUFFIXES))
                then files
                else files ++ [file])
        acc argv
  = acc ++ List.filter (λ file, is_file file
                                && bool_decide (str_lower (path_suffix file)
                                                  ∈ POSSIBLE_SUFFIXES))
                       (resolve <$> argv).
Proof.
  revert acc. induction argv as [ | arg argv IH]; intros acc; simpl.
  - by rewrite app_nil_r.
  - rewrite IH. destruct (is_file (resolve arg)); simpl; [ | done].
    destruct (bool_decide (str_lower (path_suffix (resolve arg))
                             ∈ POSSIBLE_SUFFIXES)); simpl; [ | done].
    by rewrite <- app_assoc.
Qed.

Lemma extract_files_from_args_filter (argv : list string) :
  extract_files_from_args resolve is_file argv
  = List.filter (λ file, is_file file
                         && bool_decide (str_lower (path_suffix file)
                                           ∈ POSSIBLE_SUFFIXES))
                (resolve <$> argv).
Proof. apply (extract_files_from_args_acc argv []). Qed.

(** With another number of files than two the run prints the usage line and
    returns 2; the [out/] directory is as it was. *)
Lemma main_wrong_count (argv : list string) (w : world) :
  length (extract_files_from_args resolve is_file argv) ≠ 2%nat →
  run argv w = (Ok 2%Z, World (out_dir w) (stdout w ++ [usage_message])).
Proof.
  intros H. unfold main.
  destruct (extract_files_from_args resolve is_file argv)
    as [ | a [ | b [ | c files]]]; done.
Qed.

End ProgramProperties.

(** ** Empty tables and upper-case suffixes *)

(** C6: a table without rows is an empty list, and the program asks for its
    first row: the structure validator, the positional pair extractor (with
    the empty table on the left) and the delta table raise [IndexError].
    With the empty table on the right the pair extractor returns two empty
    sequences, and the set difference of an empty table is empty.  A run on
    two files without rows ends with that [IndexError]. *)
Theorem empty_table_raises (set_iter : gset string → list string)
    (R : table) (w : world) :
  check_table_structure_integrity set_iter ([], R) = Raise IndexError
  ∧ check_table_structure_integrity set_iter (example_A, []) = Raise IndexError
  ∧ _extract_common_by_first_column [] R = Raise IndexError
  ∧ _extract_common_by_first_column example_A [] = Ok ([], [])
  ∧ _extract_difference [] R = []
  ∧ make_tab_5_analysis ([], R) w = (Raise IndexError, w)
  ∧ make_tab_5_analysis (example_A, []) w = (Raise IndexError, w)
  ∧ main id (λ _, true) (λ _, []) (λ _, []) set_iter ["a.csv"; "b.csv"] w
    = (Raise IndexError, w).
Proof. repeat split. Qed.

(** C7: two files that exist, [a.CSV] and [b.csv], hold the same table.  Both
    pass the filter on the arguments, since the suffix is put in lower case
    there; the reader is then looked up under the suffix as it is, and the
    run ends with [KeyError], which is exit status 1.  Two files with the
    suffix in lower case and the same rows end with [IndexError], raised
    when the empty difference is written. *)
Theorem uppercase_suffix_raises (w : world) :
  let run := main id (λ _, true) (λ _, example_A) (λ _, example_A) elements in
  extract_files_from_args id (λ _, true) ["a.CSV"; "b.csv"]
  = ["a.CSV"; "b.csv"]
  ∧ run ["a.CSV"; "b.csv"] w = (Raise (KeyError "extract_data_from_CSV"), w)
  ∧ exit_status (run ["a.CSV"; "b.csv"] w).1 = 1%Z
  ∧ (run ["a.csv"; "b.csv"] w).1 = Raise IndexError.
Proof.
  repeat split. simpl.
  unfold main. simpl.
  destruct w as [[d | ] out]; reflexivity.
Qed.

(** ** What a run leaves behind *)

Lemma csv_field_VStr (l : list string) : csv_field <$> (VStr <$> l) = l.
Proof.
  induction l as [ | x l IH]; [done | ]. simpl. by f_equal.
Qed.

Lemma put_all_put_all w d writes writes' :
  put_all (put_all w d writes)
          (Directory (foldl (λ m kv, <[kv.1 := kv.2]> m) (csv_files d) writes)
                     (out_xlsx d))
          writes'
  = put_all w d (writes ++ writes').
Proof. unfold put_all. simpl. by rewrite foldl_app. Qed.

Lemma io_bind_run {A B : Type} (m : io A) (f : A → io B) w :
  (m ≫= f) w = match m w with
               | (Ok a, w') => f a w'
               | (Raise e, w') => (Raise e, w')
               end.
Proof. done. Qed.

Lemma write_loop_run fieldnames file_name data content w d :
  io_for_each (λ (_ : unit) (row : dict),
                 fields ← lift (_dict_to_list fieldnames row);
                 writerow file_name fields)
              data () (with_csv w d file_name content)
  = ((written_rows fieldnames data content).1,
     with_csv w d file_name (written_rows fieldnames data content).2).
Proof.
  revert content. induction data as [ | row data IH]; intros content.
  - done.
  - cbn [io_for_each written_rows]. rewrite !io_bind_run. unfold lift.
    destruct (_dict_to_list fieldnames row) as [fields | e]; [ | done].
    rewrite writerow_run. apply IH.
Qed.

Lemma write_csv_runs_as file_name data :
  runs_as (_write_csv file_name data)
          (file_outcome file_name
             (let o := write_csv_outcome data in (o.1, Some o.2))).
Proof.
  intros w d Hout. unfold _write_csv, file_outcome, write_csv_outcome.
  rewrite io_bind_run, (open_w_run w d _ Hout).
  rewrite io_bind_run. unfold lift.
  destruct data as [ | row0 data]; [done | ].
  cbn [list_getitem lookup list_lookup].
  rewrite io_bind_run, writerow_run, csv_field_VStr.
  apply write_loop_run.
Qed.

Lemma delta_loop_run columns pairs total content w d :
  io_for_each (λ (total_differences : gmap string nat) (rows : dict * dict),
                 let '(row_a, row_b) := rows in
                 acc ← lift (for_each (merge_column row_a row_b) columns
                                      ([], total_differences));
                 _ ← writerow "out/tab_5.csv" acc.1;
                 mret acc.2)
              pairs total (with_csv w d "out/tab_5.csv" content)
  = ((delta_rows_outcome columns pairs total content).1,
     with_csv w d "out/tab_5.csv"
              (delta_rows_outcome columns pairs total content).2).
Proof.
  revert total content.
  induction pairs as [ | [row_a row_b] pairs IH]; intros total content.
  - done.
  - cbn [io_for_each delta_rows_outcome]. rewrite !io_bind_run. unfold lift.
    destruct (for_each (merge_column row_a row_b) columns ([], total))
      as [acc | e]; [ | done].
    rewrite io_bind_run, writerow_run. apply IH.
Qed.

Lemma tab_5_runs_as files :
  runs_as (make_tab_5_analysis files)
          (file_outcome "out/tab_5.csv" (tab_5_outcome files)).
Proof.
  intros w d Hout. destruct files as [file_a file_b].
  unfold make_tab_5_analysis, file_outcome, tab_5_outcome. cbn [fst snd].
  rewrite io_bind_run. unfold lift at 1.
  destruct (_extract_common_by_first_column file_a file_b)
    as [[common_left common_right] | e].
  2: { destruct w as [o out], d. simpl in *. by subst. }
  cbn [fst snd]. rewrite io_bind_run. unfold lift at 1.
  destruct common_left as [ | row0 common_left].
  { destruct w as [o out], d. simpl in *. by subst. }
  cbn [list_getitem lookup list_lookup].
  rewrite io_bind_run, (open_w_run w d _ Hout).
  rewrite io_bind_run, writerow_run, csv_field_VStr.
  rewrite io_bind_run, delta_loop_run. simpl app.
  destruct (delta_rows_outcome (dict_keys row0)
              (zip (row0 :: common_left) common_right) ∅
              [_build_column_headers (dict_keys row0)])
    as [[total | e] content]; [ | done].
  cbn [fst snd]. by rewrite writerow_run.
Qed.

Lemma seq_run {B : Type} (m : io unit) o (k : io B) w d writes :
  runs_as m o →
  (m ≫= λ _, k) (put_all w d writes)
  = match o.1 with
    | Ok _ => k (put_all w d (writes ++ o.2))
    | Raise e => (Raise e, put_all w d (writes ++ o.2))
    end.
Proof.
  intros Hm. rewrite io_bind_run.
  rewrite (Hm (put_all w d writes)
              (Directory (foldl (λ m kv, <[kv.1 := kv.2]> m)
                                (csv_files d) writes)
                         (out_xlsx d)) eq_refl).
  rewrite put_all_put_all. by destruct (o.1) as [[] | e].
Qed.

Lemma tabs_run {B : Type} (files : DataPair) (k : io B) w d :
  (_ ← make_tab_1_file_a files;
   _ ← make_tab_2_file_b files;
   _ ← make_tab_3_in_file_a_but_not_in_b files;
   _ ← make_tab_4_in_file_b_but_not_in_a files;
   _ ← make_tab_5_analysis files;
   k) (put_all w d [])
  = match (tabs_outcome files).1 with
    | Ok _ => k (put_all w d (tabs_outcome files).2)
    | Raise e => (Raise e, put_all w d (tabs_outcome files).2)
    end.
Proof.
  destruct files as [file_a file_b].
  unfold make_tab_1_file_a, make_tab_2_file_b,
    make_tab_3_in_file_a_but_not_in_b, make_tab_4_in_file_b_but_not_in_a,
    tabs_outcome, and_then.
  cbn [fst snd].
  rewrite (seq_run _ _ _ _ _ _ (write_csv_runs_as "out/tab_1.csv" file_a)).
  cbn [fst snd file_outcome app].
  destruct (write_csv_outcome file_a).1 as [[] | e]; [ | done].
  rewrite (seq_run _ _ _ _ _ _ (write_csv_runs_as "out/tab_2.csv" file_b)).
  cbn [fst snd file_outcome app].
  destruct (write_csv_outcome file_b).1 as [[] | e]; [ | done].
  rewrite (seq_run _ _ _ _ _ _
             (write_csv_runs_as "out/tab_3.csv"
                                (_extract_difference file_a file_b))).
  cbn [fst snd file_outcome app].
  destruct (write_csv_outcome (_extract_difference file_a file_b)).1
    as [[] | e]; [ | done].
  rewrite (seq_run _ _ _ _ _ _
             (write_csv_runs_as "out/tab_4.csv"
                                (_extract_difference file_b file_a))).
  cbn [fst snd file_outcome app].
  destruct (write_csv_outcome (_extract_difference file_b file_a)).1
    as [[] | e]; [ | done].
  rewrite (seq_run _ _ _ _ _ _ (tab_5_runs_as (file_a, file_b))).
  cbn [fst snd file_outcome app].
  by destruct (tab_5_outcome (file_a, file_b)).1 as [[] | e].
Qed.

Lemma tab_5_outcome_ok files u :
  (tab_5_outcome files).1 = Ok u → is_Some (tab_5_outcome files).2.
Proof.
  unfold tab_5_outcome.
  destruct (_extract_common_by_first_column files.1 files.2)
    as [[[ | row0 common_left] common_right] | e]; try done.
  cbn [fst snd].
  by destruct (delta_rows_outcome _ _ _ _) as [[total | e] content].
Qed.

Lemma tabs_outcome_ok files u :
  (tabs_outcome files).1 = Ok u →
  ∃ c1 c2 c3 c4 c5,
    (tabs_outcome files).2
    = [("out/tab_1.csv", c1); ("out/tab_2.csv", c2); ("out/tab_3.csv", c3);
       ("out/tab_4.csv", c4); ("out/tab_5.csv", c5)].
Proof.
  unfold tabs_outcome, and_then, file_outcome. cbn [fst snd].
  destruct (write_csv_outcome files.1).1 as [[] | e]; [ | done].
  destruct (write_csv_outcome files.2).1 as [[] | e]; [ | done].
  destruct (write_csv_outcome (_extract_difference files.1 files.2)).1
    as [[] | e]; [ | done].
  destruct (write_csv_outcome (_extract_difference files.2 files.1)).1
    as [[] | e]; [ | done].
  cbn [fst snd]. intros H. apply tab_5_outcome_ok in H as [c5 ->].
  by eexists _, _, _, _, _.
Qed.

(** *** The workbook *)

Lemma fold_add_sheet_further csvs (paths : list string) (n : nat)
    (wb : workbook) :
  foldl (add_sheet csvs) wb (imap (λ i p, (S (n + i), p)) paths)
  = wb ++ imap (λ i p, Sheet ("Onglet " +:+ pretty (S (n + i) + 1)%nat)
                             (default [] (csvs !! p)))
               paths.
Proof.
  revert n wb. induction paths as [ | p paths IH]; intros n wb.
  - by rewrite app_nil_r.
  - rewrite !imap_cons. cbn [foldl add_sheet Nat.eqb].
    rewrite (imap_ext _ (λ i p, (S (S n + i), p))).
    2: { intros i x _. simpl. do 2 f_equal. lia. }
    rewrite IH, <- app_assoc. simpl. do 2 f_equal.
    apply imap_ext. intros i x _. simpl. do 3 f_equal. lia.
Qed.

Lemma fold_add_sheet csvs (p : string) (paths : list string) :
  foldl (add_sheet csvs) [Sheet "Sheet" []] (imap (λ i p, (i, p)) (p :: paths))
  = imap (λ i p, Sheet ("Onglet " +:+ pretty (i + 1)%nat)
                       (default [] (csvs !! p)))
         (p :: paths).
Proof.
  rewrite !imap_cons. cbn [foldl add_sheet Nat.eqb sheet_rows app].
  rewrite (fold_add_sheet_further csvs paths 0). done.
Qed.

Lemma lookup_fold_delete (csvs : gmap string csv_file) (paths : list string) k :
  foldl (λ m p, delete p m) csvs paths !! k
  = if bool_decide (k ∈ paths) then None else csvs !! k.
Proof.
  revert csvs. induction paths as [ | p paths IH]; intros csvs; simpl.
  - done.
  - rewrite IH. destruct (decide (k = p)) as [-> | Hne].
    + rewrite lookup_delete_eq. rewrite (bool_decide_eq_true_2 (p ∈ p :: paths))
        by left. by destruct (bool_decide (p ∈ paths)).
    + rewrite lookup_delete_ne by done.
      destruct (bool_decide (k ∈ paths)) eqn:E.
      * rewrite bool_decide_eq_true_2; [done | ].
        right. by apply bool_decide_eq_true_1 in E.
      * rewrite bool_decide_eq_false_2; [done | ].
        apply bool_decide_eq_false_1 in E.
        intros [? | ?]%elem_of_cons; done.
Qed.

Lemma elem_of_sorted_paths (csvs : gmap string csv_file) (x : option workbook) k :
  k ∈ sorted_csv_paths (Directory csvs x) ↔ is_Some (csvs !! k).
Proof.
  unfold sorted_csv_paths. simpl. rewrite merge_sort_Permutation.
  rewrite list_elem_of_fmap. split.
  - intros [[k' v] [-> H%elem_of_map_to_list]]. by exists v.
  - intros [v H]. exists (k, v). split; [done | ].
    by apply elem_of_map_to_list.
Qed.

Lemma merge_run w d writes (p : string) (c : csv_file) :
  written_over (csv_files d) writes !! p = Some c →
  csv_tab_files_to_excel_sheets (put_all w d writes)
  = (Ok (),
     World (Some (Directory
                    ∅ (Some (workbook_of (written_over (csv_files d) writes)))))
           (stdout w)).
Proof.
  intros Hp. unfold csv_tab_files_to_excel_sheets, put_all. cbn [out_dir stdout].
  fold (written_over (csv_files d) writes).
  set (csvs := written_over (csv_files d) writes) in *.
  cbn [csv_files out_xlsx].
  set (paths := sorted_csv_paths (Directory csvs (out_xlsx d))).
  assert (Hrest : foldl (λ m q, delete q m) csvs paths = ∅).
  { apply map_eq. intros k. rewrite lookup_fold_delete, lookup_empty.
    destruct (bool_decide (k ∈ paths)) eqn:E; [done | ].
    apply bool_decide_eq_false_1 in E. unfold paths in E.
    rewrite elem_of_sorted_paths in E. by apply eq_None_not_Some. }
  assert (Hwb : foldl (add_sheet csvs) [Sheet "Sheet" []]
                      (imap (λ i q, (i, q)) paths)
                = workbook_of csvs).
  { assert (Hin : p ∈ paths) by (apply elem_of_sorted_paths; by exists c).
    unfold workbook_of. unfold paths, sorted_csv_paths in *.
    cbn [csv_files] in *.
    destruct (merge_sort String.le (map_to_list csvs).*1) as [ | q rest].
    - by apply elem_of_nil in Hin.
    - apply fold_add_sheet. }
  by rewrite Hrest, Hwb.
Qed.

Lemma written_over_other (csvs : gmap string csv_file) writes k :
  k ∉ writes.*1 → written_over csvs writes !! k = csvs !! k.
Proof.
  unfold written_over. revert csvs.
  induction writes as [ | [k' c'] writes IH]; intros csvs Hk; simpl; [done | ].
  simpl in Hk. apply not_elem_of_cons in Hk as [Hne Hk].
  rewrite IH by done. by rewrite lookup_insert_ne.
Qed.

Lemma written_over_lookup (csvs : gmap string csv_file) writes k c :
  NoDup writes.*1 → (k, c) ∈ writes → written_over csvs writes !! k = Some c.
Proof.
  unfold written_over. revert csvs.
  induction writes as [ | [k' c'] writes IH]; intros csvs Hnd Hin; simpl.
  - by apply elem_of_nil in Hin.
  - simpl in Hnd. apply NoDup_cons in Hnd as [Hk' Hnd].
    apply elem_of_cons in Hin as [[= -> ->] | Hin].
    + fold (written_over (<[k' := c']> csvs) writes).
      rewrite written_over_other by done. apply lookup_insert_eq.
    + by apply IH.
Qed.








Lemma tab_paths_NoDup : NoDup tab_paths.
Proof. apply (bool_decide_unpack _). vm_compute. exact I. Qed.



Lemma create_out_dir_run w :
  create_out_dir_if_not_exists w
  = (Ok (), put_all w (default (Directory ∅ None) (out_dir w)) []).
Proof.
  unfold create_out_dir_if_not_exists, put_all.
  by destruct w as [[[csvs x] | ] out].
Qed.

Lemma pipeline_run files w :
  (_ ← create_out_dir_if_not_exists;
   _ ← make_tab_1_file_a files;
   _ ← make_tab_2_file_b files;
   _ ← make_tab_3_in_file_a_but_not_in_b files;
   _ ← make_tab_4_in_file_b_but_not_in_a files;
   _ ← make_tab_5_analysis files;
   _ ← csv_tab_files_to_excel_sheets;
   mret 0%Z) w
  = pipeline_outcome files w.
Proof.
  rewrite io_bind_run, create_out_dir_run, tabs_run. unfold pipeline_outcome.
  cbn zeta. destruct (tabs_outcome files).1 as [u | e] eqn:Hr; [ | done].
  rewrite io_bind_run.
  destruct (tabs_outcome_ok files u Hr) as (c1 & c2 & c3 & c4 & c5 & Hws).
  rewrite (merge_run _ _ _ "out/tab_1.csv" c1); [done | ].
  rewrite Hws. apply written_over_lookup; [apply tab_paths_NoDup | left].
Qed.






Section Determinism.

Variable resolve : string → string.
Variable is_file : string → bool.
Variable extract_data_from_xlsx : string → table.
Variable extract_data_from_csv : string → table.

Lemma main_run (set_iter : gset string → list string) argv w :
  main resolve is_file extract_data_from_xlsx extract_data_from_csv set_iter
       argv w
  = match extract_files_from_args resolve is_file argv with
    | [file_a; file_b] =>
        match extract_data_from_files extract_data_from_xlsx
                                      extract_data_from_csv
                                      (file_a, file_b) with
        | Ok files =>
            match check_table_structure_integrity set_iter files with
            | Ok _ => pipeline_outcome files w
            | Raise (ValueError msg) =>
                (Ok 1%Z, World (out_dir w) (stdout w ++ [msg]))
            | Raise e => (Raise e, w)
            end
        | Raise e => (Raise e, w)
        end
    | _ => (Ok 2%Z, World (out_dir w) (stdout w ++ [usage_message]))
    end.
Proof.
  unfold main.
  destruct (extract_files_from_args resolve is_file argv)
    as [ | file_a [ | file_b [ | file_c files]]]; try done.
  rewrite io_bind_run. unfold lift at 1.
  destruct (extract_data_from_files _ _ (file_a, file_b)) as [files | e];
    [ | done].
  rewrite io_bind_run. unfold try_except_ValueError.
  rewrite io_bind_run. unfold lift at 1.
  destruct (check_table_structure_integrity set_iter files) as [[] | e].
  - cbn [mret io_ret]. apply pipeline_run.
  - by destruct e.
Qed.


End Determinism.

(** * The theorems at concrete inputs *)

Lemma example_A_columns : has_columns (dict_keys row_1x) example_A.
Proof. apply has_columns_same_keys. by repeat constructor. Defined.

Lemma example_B_columns : has_columns (dict_keys row_1x) example_B.
Proof. apply has_columns_same_keys. by repeat constructor. Defined.

Lemma extract_common_correct_witness :
  _extract_common_by_first_column example_A example_B
  = Ok ([row_1x; row_2y], [row_1x; row_2z]).
Proof.
  apply (extract_common_correct example_A example_B row_1x "id" ["v"]).
  - reflexivity.
  - reflexivity.
  - exact example_A_columns.
  - exact example_B_columns.
Defined.



Lemma delta_table_rectangular_witness :
  ∃ content : csv_file,
    make_tab_5_analysis (example_A, example_B) fresh_world
    = (Ok (), with_csv fresh_world empty_out "out/tab_5.csv" content)
    ∧ length content = 4%nat
    ∧ Forall (λ row, length row = 6%nat) content.
Proof.
  apply (delta_table_rectangular example_A example_B row_1x row_1x row_1x
                                 "id" ["v"] fresh_world empty_out).
  - reflexivity.
  - reflexivity.
  - exact example_A_columns.
  - exact example_B_columns.
  - reflexivity.
  - reflexivity.
Defined.

Lemma structure_validator_witness :
  keys_symmetric_difference row_id_name row_id_email = {["name"; "email"]}
  ∧ size (keys_symmetric_difference row_id_name row_id_email) = 2%nat
  ∧ exit_status (main id (λ _, true) read_example read_example elements
                      ["a.csv"; "b.csv"] (World None [])).1 = 1%Z
  ∧ out_dir (main id (λ _, true) read_example read_example elements
                  ["a.csv"; "b.csv"] (World None [])).2 = None.
Proof.
  destruct (structure_validator id (λ _, true) read_example read_example
              elements ["a.csv"; "b.csv"] "a.csv" "b.csv"
              row_id_name row_id_email [] [] (World None []))
    as (_ & _ & H).
  - reflexivity.
  - reflexivity.
  - reflexivity.
  - destruct H as (names & _ & _ & _ & Hmain & Hexit).
    + apply (bool_decide_unpack _). vm_compute. exact I.
    + split; [ | split; [ | split]].
      * vm_compute. reflexivity.
      * vm_compute. reflexivity.
      * exact Hexit.
      * rewrite Hmain. reflexivity.
Defined.


(** * Further properties of the code *)

(** ** Equality of rows and the set difference *)

(** The value a cell stands for under [==]: [True] and [False] are the
    numbers 1 and 0. *)
Definition value_key (v : value) : value :=
  match v with
  | VBool b => VInt (Z.b2z b)
  | other => other
  end.

Lemma py_eq_value_key u v : py_eq u v = true ↔ value_key u = value_key v.
Proof.
  destruct u as [ | a | n | s], v as [ | b | m | t]; simpl;
    try (split; [done | intros [=]]); try done.
  - destruct a, b; simpl; split; done.
  - rewrite Z.eqb_eq. split; [by intros -> | by intros [= ->]].
  - rewrite Z.eqb_eq. split; [by intros -> | by intros [= ->]].
  - rewrite Z.eqb_eq. split; [by intros -> | by intros [= ->]].
  - rewrite String.eqb_eq. split; [by intros -> | by intros [= ->]].
Qed.

Lemma py_eq_trans u v w : py_eq u v = true → py_eq v w = true → py_eq u w = true.
Proof. rewrite !py_eq_value_key. congruence. Qed.

Lemma rows_equal_sym a b : rows_equal a b → rows_equal b a.
Proof.
  intros [Hkeys Hvals]. split; [by intros k; rewrite Hkeys | ].
  intros k vb va Hb Ha. rewrite py_eq_sym. by eapply Hvals.
Qed.

Lemma rows_equal_trans a b c : rows_equal a b → rows_equal b c → rows_equal a c.
Proof.
  intros [Hk1 Hv1] [Hk2 Hv2]. split; [by intros k; rewrite Hk1, Hk2 | ].
  intros k va vc Ha Hc.
  assert (Hb : is_Some (dict_get b k)).
  { apply dict_get_is_Some, Hk1, dict_get_is_Some. by eexists. }
  destruct Hb as [vb Hb].
  apply (py_eq_trans va vb vc); [by eapply Hv1 | by eapply Hv2].
Qed.

Lemma rows_equal_permutation a b :
  dict_items a ≡ₚ dict_items b → rows_equal a b.
Proof.
  intros Hperm. split.
  - intros k. unfold dict_keys. by rewrite Hperm.
  - intros k va vb Ha%dict_get_item Hb. rewrite Hperm in Ha.
    apply dict_get_item in Ha. rewrite Ha in Hb. injection Hb as <-.
    apply py_eq_refl.
Qed.

Lemma list_contains_rows_equal a b R :
  rows_equal a b → list_contains a R = list_contains b R.
Proof.
  intros Hab. apply eq_true_iff_eq. rewrite !list_contains_spec.
  split; intros (r & Hr & Heq); exists r; (split; [done | ]).
  - eapply rows_equal_trans; [by apply rows_equal_sym | done].
  - by eapply rows_equal_trans.
Qed.

(** X1: two rows with the same items in another order are the same row for
    [==], in both directions, and the test [row in table] does not tell them
    apart. *)
Theorem rows_in_any_column_order (a b : dict) (R : table) :
  dict_items a ≡ₚ dict_items b →
  dict_eqb a b = true
  ∧ dict_eqb b a = true
  ∧ list_contains a R = list_contains b R.
Proof.
  intros Hperm. pose proof (rows_equal_permutation a b Hperm) as Heq.
  split; [by apply dict_eqb_spec | ].
  split; [by apply dict_eqb_spec, rows_equal_sym | ].
  by apply list_contains_rows_equal.
Qed.

Lemma extract_difference_nil_iff (L R : table) :
  _extract_difference L R = []
  ↔ ∀ row, row ∈ L → ∃ r, r ∈ R ∧ rows_equal row r.
Proof.
  rewrite extract_difference_filter. split.
  - intros Hnil row Hrow. apply list_contains_spec.
    destruct (list_contains row R) eqn:E; [done | ].
    assert (Hin : In row (List.filter (λ row, negb (list_contains row R)) L)).
    { apply filter_In. split; [by apply list_elem_of_In | by rewrite E]. }
    rewrite Hnil in Hin. destruct Hin.
  - intros Hall. apply filter_none. intros row Hrow.
    apply negb_false_iff, list_contains_spec. by apply Hall.
Qed.

(** X2: the set difference is empty exactly when every row of the left table
    has an equal row in the right table; its rows are never rows of the
    right table. *)
Theorem extract_difference_empty_iff (L R : table) :
  (_extract_difference L R = []
   ↔ ∀ row, row ∈ L → ∃ r, r ∈ R ∧ rows_equal row r)
  ∧ ∀ row, row ∈ _extract_difference L R → list_contains row R = false.
Proof.
  split; [apply extract_difference_nil_iff | ].
  intros row. rewrite extract_difference_filter.
  intros [_ H]%list_elem_of_In%filter_In. by apply negb_true_iff.
Qed.

Lemma list_contains_app row R1 R2 :
  list_contains row (R1 ++ R2) = list_contains row R1 || list_contains row R2.
Proof. unfold list_contains. apply existsb_app. Qed.

(** X3: the set difference goes through the left table piece by piece, takes
    a right table that is empty for nothing, takes a right table in two
    pieces one after the other, and changes nothing when it is taken
    again. *)
Theorem extract_difference_algebra (L L' R R' : table) :
  _extract_difference (L ++ L') R
  = _extract_difference L R ++ _extract_difference L' R
  ∧ _extract_difference L [] = L
  ∧ _extract_difference L (R ++ R')
    = _extract_difference (_extract_difference L R) R'
  ∧ _extract_difference (_extract_difference L R) R = _extract_difference L R.
Proof.
  rewrite !extract_difference_filter.
  split; [apply List.filter_app | ].
  split.
  { clear. induction L as [ | row L IH]; [done | ].
    cbn [List.filter list_contains existsb negb]. by f_equal. }
  split.
  - clear. induction L as [ | row L IH]; simpl; [done | ].
    rewrite list_contains_app, negb_orb.
    destruct (list_contains row R); simpl; [done | ].
    destruct (list_contains row R'); simpl; by rewrite IH.
  - clear. induction L as [ | row L IH]; simpl; [done | ].
    destruct (list_contains row R) eqn:E; simpl; [done | ].
    by rewrite E, IH.
Qed.

(** ** Positional pairs and the delta table *)

Lemma filter_all {A : Type} (keep : A → bool) (l : list A) :
  (∀ x, x ∈ l → keep x = true) → List.filter keep l = l.
Proof.
  induction l as [ | x l IH]; intros H; simpl; [done | ].
  rewrite H by apply list_elem_of_here. f_equal.
  apply IH. intros y Hy. apply H. by apply list_elem_of_further.
Qed.

Lemma zip_diag {A : Type} (l : list A) x y : (x, y) ∈ zip l l → x = y.
Proof.
  induction l as [ | z l IH]; simpl; [by intros ?%elem_of_nil | ].
  intros [[= -> ->] | H]%elem_of_cons; [done | by apply IH].
Qed.

(** X4: a table whose rows all have the columns of its first row is paired
    with itself row by row: no index is dropped. *)
Theorem extract_common_self (L : table) (row0 : dict) (c : string)
    (columns : list string) :
  L !! 0%nat = Some row0 →
  dict_keys row0 = c :: columns →
  has_columns (c :: columns) L →
  _extract_common_by_first_column L L = Ok (L, L).
Proof.
  intros H0 Hkeys HL.
  rewrite (extract_common_run L L row0 c columns) by done.
  unfold aligned_pairs. rewrite filter_all.
  - by rewrite fst_zip, snd_zip.
  - intros [x y] <-%zip_diag. apply py_eq_refl.
Qed.

Lemma dict_getitem_missing d k :
  k ∉ dict_keys d → dict_getitem d k = Raise (KeyError k).
Proof.
  intros H. unfold dict_getitem.
  destruct (dict_get d k) as [v | ] eqn:E; [ | done].
  exfalso. apply H, dict_get_is_Some. by eexists.
Qed.

Lemma common_loop_missing (c : string) (pairs : list (dict * dict))
    (common : DataPair) :
  Exists (λ rows : dict * dict,
            c ∉ dict_keys rows.1 ∨ c ∉ dict_keys rows.2) pairs →
  for_each (λ (common : DataPair) (rows : dict * dict),
              let '(common_left, common_right) := common in
              let '(row_left, row_right) := rows in
              l ← dict_getitem row_left c;
              r ← dict_getitem row_right c;
              if py_eq l r
              then Ok (common_left ++ [row_left], common_right ++ [row_right])
              else Ok (common_left, common_right))
           pairs common
  = Raise (KeyError c).
Proof.
  revert common. induction pairs as [ | [l r] pairs IH]; intros [cl cr] H.
  - by apply Exists_nil in H.
  - cbn [for_each].
    destruct (decide (c ∈ dict_keys l)) as [Hl | Hl].
    2: { by rewrite (dict_getitem_missing l c Hl). }
    rewrite (dict_getitem_cell l c Hl). cbn [mbind result_bind].
    destruct (decide (c ∈ dict_keys r)) as [Hr | Hr].
    2: { by rewrite (dict_getitem_missing r c Hr). }
    rewrite (dict_getitem_cell r c Hr). cbn [mbind result_bind].
    apply Exists_cons in H as [[H | H] | H]; [done | done | ].
    destruct (py_eq (cell l c) (cell r c)); cbn [mbind result_bind];
      by apply IH.
Qed.

(** X5: if, at an index both tables have, one of the two rows lacks the first
    column of the left table, the positional pair extractor raises
    [KeyError] for that column. *)
Theorem extract_common_missing_key (L R : table) (row0 l r : dict)
    (c : string) (columns : list string) :
  L !! 0%nat = Some row0 →
  dict_keys row0 = c :: columns →
  (l, r) ∈ zip L R →
  c ∉ dict_keys l ∨ c ∉ dict_keys r →
  _extract_common_by_first_column L R = Raise (KeyError c).
Proof.
  intros H0 Hkeys Hin Hmiss.
  destruct L as [ | row L']; [done | ]. injection H0 as ->.
  unfold _extract_common_by_first_column, list_getitem.
  cbn [lookup list_lookup mbind result_bind]. rewrite Hkeys.
  cbn [lookup list_lookup mbind result_bind].
  apply common_loop_missing, Exists_exists. by exists (l, r).
Qed.

Lemma aligned_pairs_agree c A B rows :
  rows ∈ aligned_pairs c A B → differs c rows = false.
Proof.
  unfold aligned_pairs. intros H%list_elem_of_In%filter_In.
  destruct H as [_ H]. unfold differs, py_ne.
  unfold keys_agree in H. by rewrite H.
Qed.

Lemma count_differing_key c A B :
  count_differing c (aligned_pairs c A B) = 0%nat.
Proof.
  unfold count_differing. rewrite filter_none; [done | ].
  intros rows. apply aligned_pairs_agree.
Qed.

(** X6: the column the rows are aligned on never differs.  When it is the
    first column of the first aligned row, every delta row and the totals
    row of the delta table have [0] as their third cell. *)
Theorem key_column_never_differs (A B : table) (row0 first_a first_b : dict)
    (c : string) (rest rest' : list string) (w : world) (d : directory) :
  A !! 0%nat = Some row0 →
  dict_keys row0 = c :: rest →
  has_columns (dict_keys row0) A →
  has_columns (dict_keys row0) B →
  aligned_pairs c A B !! 0%nat = Some (first_a, first_b) →
  dict_keys first_a = c :: rest' →
  out_dir w = Some d →
  count_differing c (aligned_pairs c A B) = 0%nat
  ∧ ∃ (header : list string) (rows : csv_file),
      make_tab_5_analysis (A, B) w
      = (Ok (), with_csv w d "out/tab_5.csv" (header :: rows))
      ∧ length rows = S (length (aligned_pairs c A B))
      ∧ Forall (λ row, row !! 2%nat = Some "0") rows.
Proof.
  intros H0 Hkeys HA HB Hfirst Hcols Hout.
  split; [apply count_differing_key | ].
  eexists _, _. split; [ | split].
  - rewrite (make_tab_5_analysis_run A B row0 c rest first_a first_b w d)
      by done.
    unfold delta_table_spec, csv_rows. rewrite fmap_cons. reflexivity.
  - rewrite length_fmap, length_app, length_fmap. simpl. lia.
  - rewrite Hcols. apply Forall_fmap, Forall_app. split.
    + apply Forall_fmap, Forall_forall. intros rows Hrows.
      unfold delta_row_spec, compose. simpl.
      by rewrite (aligned_pairs_agree c A B rows Hrows).
    + apply Forall_singleton. unfold totals_spec. simpl.
      by rewrite count_differing_key.
Qed.

(** X7: when no index has two rows that agree in the first column, the
    delta table raises [IndexError] before it opens its file: the world is
    as it was. *)
Theorem no_aligned_pair (A B : table) (row0 : dict) (c : string)
    (rest : list string) (w : world) :
  A !! 0%nat = Some row0 →
  dict_keys row0 = c :: rest →
  has_columns (c :: rest) A →
  has_columns (c :: rest) B →
  aligned_pairs c A B = [] →
  make_tab_5_analysis (A, B) w = (Raise IndexError, w).
Proof.
  intros H0 Hkeys HA HB Hnone. unfold make_tab_5_analysis.
  rewrite io_bind_run. unfold lift at 1.
  rewrite (extract_common_run A B row0 c rest) by done.
  rewrite Hnone. reflexivity.
Qed.

(** ** Writing a table *)

Lemma dict_to_list_ok fieldnames row :
  dict_keys row ⊆ fieldnames →
  _dict_to_list fieldnames row
  = Ok ((λ key, default (VStr "") (dict_get row key)) <$> fieldnames).
Proof.
  intros H. unfold _dict_to_list.
  assert (Hall : forallb (λ k, bool_decide (k ∈ fieldnames)) (dict_keys row)
                 = true).
  { apply forallb_forall. intros k Hk%list_elem_of_In.
    apply bool_decide_eq_true_2. by apply H. }
  by rewrite Hall.
Qed.


Lemma written_rows_good fieldnames good rest content :
  Forall (λ row, dict_keys row ⊆ fieldnames) good →
  written_rows fieldnames (good ++ rest) content
  = written_rows fieldnames rest (content ++ (row_fields fieldnames <$> good)).
Proof.
  intros H. revert content.
  induction H as [ | row good Hrow H IH]; intros content.
  - by rewrite app_nil_r.
  - cbn [app written_rows]. rewrite (dict_to_list_ok _ _ Hrow), IH.
    rewrite <- app_assoc. do 2 f_equal. simpl. f_equal.
    unfold row_fields. by rewrite <- list_fmap_compose.
Qed.

Lemma write_csv_run file_name data w d :
  out_dir w = Some d →
  _write_csv file_name data w
  = ((write_csv_outcome data).1,
     with_csv w d file_name (write_csv_outcome data).2).
Proof. intros Hout. by apply (write_csv_runs_as file_name data w d). Qed.

(** X8: for a table whose rows have no key outside those of its first row,
    [_write_csv] leaves in its file the keys of the first row and then one
    line per row, with the fields in the order of those keys and an empty
    field where a row lacks a key. *)
Theorem write_csv_table (file_name : string) (data : table) (row0 : dict)
    (w : world) (d : directory) :
  data !! 0%nat = Some row0 →
  Forall (λ row, dict_keys row ⊆ dict_keys row0) data →
  out_dir w = Some d →
  _write_csv file_name data w
  = (Ok (),
     with_csv w d file_name
              (dict_keys row0
                 :: ((λ row, (λ key, csv_field (default (VStr "")
                                                        (dict_get row key)))
                               <$> dict_keys row0) <$> data)))
  ∧ length (table_csv data) = S (length data).
Proof.
  intros H0 Hkeys Hout.
  destruct data as [ | row data']; [done | ]. injection H0 as ->.
  split; [ | simpl; by rewrite length_fmap].
  rewrite (write_csv_run _ _ w d Hout). unfold write_csv_outcome.
  rewrite <- (app_nil_r (row0 :: data')) at 1 2.
  by rewrite (written_rows_good _ _ [] _ Hkeys).
Qed.


(** X10: [_write_csv] replaces its file.  How it ends and what the file
    holds afterwards depend on the table alone, not on what [out/] held;
    no other CSV file, the workbook or the terminal changes.  Without the
    directory it raises [FileNotFoundError] and changes nothing. *)
Theorem write_csv_replaces (file_name : string) (data : table) :
  (∃ (r : result unit) (content : csv_file),
      ∀ w d, out_dir w = Some d →
             ∃ d', _write_csv file_name data w
                   = (r, World (Some d') (stdout w))
                   ∧ csv_files d' !! file_name = Some content
                   ∧ (∀ other, other ≠ file_name →
                               csv_files d' !! other = csv_files d !! other)
                   ∧ out_xlsx d' = out_xlsx d)
  ∧ ∀ w, out_dir w = None →
         _write_csv file_name data w
         = (Raise (FileNotFoundError file_name), w).
Proof.
  split.
  - exists (write_csv_outcome data).1, (write_csv_outcome data).2.
    intros w d Hout. eexists. split; [ | split; [ | split]].
    + rewrite (write_csv_run _ _ w d Hout). reflexivity.
    + apply lookup_insert_eq.
    + intros other Hne. simpl. by rewrite lookup_insert_ne.
    + done.
  - intros w Hout. unfold _write_csv. rewrite io_bind_run.
    unfold open_w. by rewrite Hout.
Qed.

(** ** The workbook *)


(** ** Arguments, readers and the run *)

Lemma ascii_lower_dot c : ascii_lower c = "."%char → c = "."%char.
Proof. destruct c as [[] [] [] [] [] [] [] []]; by intros [=]. Qed.

Lemma ascii_lower_x c : ascii_lower c = "x"%char → c = "x"%char ∨ c = "X"%char.
Proof. destruct c as [[] [] [] [] [] [] [] []]; intros [=]; auto. Qed.

Lemma ascii_lower_l c : ascii_lower c = "l"%char → c = "l"%char ∨ c = "L"%char.
Proof. destruct c as [[] [] [] [] [] [] [] []]; intros [=]; auto. Qed.

Lemma ascii_lower_s c : ascii_lower c = "s"%char → c = "s"%char ∨ c = "S"%char.
Proof. destruct c as [[] [] [] [] [] [] [] []]; intros [=]; auto. Qed.

Lemma ascii_lower_c c : ascii_lower c = "c"%char → c = "c"%char ∨ c = "C"%char.
Proof. destruct c as [[] [] [] [] [] [] [] []]; intros [=]; auto. Qed.

Lemma ascii_lower_v c : ascii_lower c = "v"%char → c = "v"%char ∨ c = "V"%char.
Proof. destruct c as [[] [] [] [] [] [] [] []]; intros [=]; auto. Qed.

Lemma check_passes_iff_keys (set_iter : gset string → list string)
    (row_a row_b : dict) (rest_a rest_b : table) :
  check_table_structure_integrity set_iter (row_a :: rest_a, row_b :: rest_b)
  = Ok ()
  ↔ ∀ k, k ∈ dict_keys row_a ↔ k ∈ dict_keys row_b.
Proof.
  unfold check_table_structure_integrity. simpl.
  case_bool_decide as Hdiff; split; try done.
  - intros Hsame. exfalso. apply Hdiff. apply set_eq. intros k.
    rewrite keys_symmetric_difference_spec, Hsame.
    split; [intros [[? ?] | [? ?]]; done | by intros ?%not_elem_of_empty].
  - intros _ k.
    assert (Hk : k ∉ keys_symmetric_difference row_a row_b)
      by (rewrite Hdiff; apply not_elem_of_empty).
    rewrite keys_symmetric_difference_spec in Hk.
    destruct (decide (k ∈ dict_keys row_a)), (decide (k ∈ dict_keys row_b));
      split; intros ?; try done; exfalso; apply Hk; auto.
Qed.

(** X12: the structure validator passes exactly when the first rows of the
    two tables have the same keys, in any order; the rows after the first
    play no part. *)
Theorem check_passes_iff (set_iter : gset string → list string)
    (row_a row_b : dict) (rest_a rest_b : table) :
  check_table_structure_integrity set_iter (row_a :: rest_a, row_b :: rest_b)
  = Ok ()
  ↔ dict_keys row_a ≡ₚ dict_keys row_b.
Proof.
  rewrite check_passes_iff_keys. split.
  - intros H. by apply NoDup_Permutation; [apply dict_keys_NoDup.. | ].
  - intros H k. by rewrite H.
Qed.

Lemma str_lower_suffix_cases (s : string) :
  str_lower s ∈ POSSIBLE_SUFFIXES →
  s ∈ [".xlsx"; ".xlsX"; ".xlSx"; ".xlSX"; ".xLsx"; ".xLsX"; ".xLSx"; ".xLSX";
       ".Xlsx"; ".XlsX"; ".XlSx"; ".XlSX"; ".XLsx"; ".XLsX"; ".XLSx"; ".XLSX";
       ".csv"; ".csV"; ".cSv"; ".cSV"; ".Csv"; ".CsV"; ".CSv"; ".CSV"].
Proof.
  unfold POSSIBLE_SUFFIXES.
  intros [H | [H | H%elem_of_nil]%elem_of_cons]%elem_of_cons; [ | | done].
  - destruct s as [ | c0 [ | c1 [ | c2 [ | c3 [ | c4 [ | c5 s]]]]]];
      try discriminate H.
    injection H as H0%ascii_lower_dot H1%ascii_lower_x H2%ascii_lower_l
                     H3%ascii_lower_s H4%ascii_lower_x.
    destruct H1, H2, H3, H4; subst; set_solver.
  - destruct s as [ | c0 [ | c1 [ | c2 [ | c3 [ | c4 s]]]]];
      try discriminate H.
    injection H as H0%ascii_lower_dot H1%ascii_lower_c H2%ascii_lower_s
                     H3%ascii_lower_v.
    destruct H1, H2, H3; subst; set_solver.
Qed.

Lemma has_columns_keys_subseteq columns (t : table) row0 :
  has_columns columns t → row0 ∈ t →
  Forall (λ row, dict_keys row ⊆ dict_keys row0) t.
Proof.
  intros Ht H0. apply Forall_forall. intros row Hrow k Hk.
  apply (proj1 (Forall_forall _ _) Ht row0 H0).
  by apply (proj1 (Forall_forall _ _) Ht row Hrow).
Qed.

Lemma write_csv_outcome_uniform columns (data : table) :
  data ≠ [] → has_columns columns data →
  write_csv_outcome data = (Ok (), table_csv data).
Proof.
  intros Hne Hcols. destruct data as [ | row0 data']; [done | ].
  unfold write_csv_outcome, table_csv.
  rewrite <- (app_nil_r (row0 :: data')) at 1.
  rewrite written_rows_good; [done | ].
  eapply has_columns_keys_subseteq; [done | left].
Qed.





Lemma tabs_outcome_left_shared (A B : table) (columns : list string) :
  A ≠ [] → B ≠ [] →
  has_columns columns A → has_columns columns B →
  _extract_difference A B = [] →
  tabs_outcome (A, B)
  = (Raise IndexError,
     [("out/tab_1.csv", table_csv A); ("out/tab_2.csv", table_csv B);
      ("out/tab_3.csv", [])]).
Proof.
  intros HAne HBne HA HB Hdiff. unfold tabs_outcome, and_then, file_outcome.
  cbn [fst snd].
  rewrite (write_csv_outcome_uniform columns A HAne HA).
  rewrite (write_csv_outcome_uniform columns B HBne HB).
  rewrite Hdiff. reflexivity.
Qed.


Section RunProperties.

Variable resolve : string → string.
Variable is_file : string → bool.
Variable extract_data_from_xlsx : string → table.
Variable extract_data_from_csv : string → table.
Variable set_iter : gset string → list string.

Local Abbreviation run_main :=
  (main resolve is_file extract_data_from_xlsx extract_data_from_csv set_iter).

(** X13: the files kept from the arguments are, in the order of the
    arguments and as often as they are given, the resolved paths that are
    files and whose suffix in lower case is [.xlsx] or [.csv]. *)
Theorem extract_files_from_args_spec (argv argv' : list string) :
  extract_files_from_args resolve is_file argv `sublist_of` (resolve <$> argv)
  ∧ (∀ file, file ∈ extract_files_from_args resolve is_file argv
             ↔ file ∈ resolve <$> argv
               ∧ is_file file = true
               ∧ str_lower (path_suffix file) ∈ POSSIBLE_SUFFIXES)
  ∧ extract_files_from_args resolve is_file (argv ++ argv')
    = extract_files_from_args resolve is_file argv
        ++ extract_files_from_args resolve is_file argv'.
Proof.
  rewrite !extract_files_from_args_filter. split; [ | split].
  - induction (resolve <$> argv) as [ | file files IH]; simpl; [done | ].
    destruct (is_file file && _);
      [by apply sublist_skip | by apply sublist_cons].
  - intros file.
    rewrite list_elem_of_In, filter_In, <- list_elem_of_In.
    by rewrite andb_true_iff, bool_decide_eq_true.
  - by rewrite fmap_app, List.filter_app.
Qed.

(** X14: with another number of kept files than two the run prints the
    usage line, returns 2 and leaves [out/] as it was. *)
Theorem wrong_number_of_files (argv : list string) (w : world) :
  length (extract_files_from_args resolve is_file argv) ≠ 2%nat →
  run_main argv w
  = (Ok 2%Z,
     World (out_dir w)
           (stdout w ++ ["Erreur: 2 fichiers requis en entrée (.xlsx, .csv)"]))
  ∧ exit_status (run_main argv w).1 = 2%Z.
Proof.
  intros H. rewrite main_run.
  destruct (extract_files_from_args resolve is_file argv)
    as [ | a [ | b [ | c files]]]; done.
Qed.

(** X15: a file that passed the filter on the arguments is read by the
    reader named after its suffix when the suffix is [.xlsx] or [.csv] as
    written; with any letter of the suffix in upper case the look-up of the
    reader raises [KeyError]. *)
Theorem extract_by_suffix (file : string) :
  str_lower (path_suffix file) ∈ POSSIBLE_SUFFIXES →
  extract extract_data_from_xlsx extract_data_from_csv file
  = if bool_decide (path_suffix file = ".xlsx")
    then Ok (extract_data_from_xlsx file)
    else if bool_decide (path_suffix file = ".csv")
         then Ok (extract_data_from_csv file)
         else Raise (KeyError ("extract_data_from_"
                                 +:+ remove_dots (path_suffix file))).
Proof.
  intros H%str_lower_suffix_cases. unfold extract.
  repeat (apply elem_of_cons in H as [-> | H]; [reflexivity | ]).
  by apply elem_of_nil in H.
Qed.

(** X16: when the two tables pass the structure check and every row of the
    first has an equal row in the second, the run raises [IndexError] while
    it writes the empty difference: the process ends with status 1, no
    workbook is saved, and [out/] is left with the first two tables and an
    empty [tab_3.csv]. *)
Theorem run_left_rows_all_shared (argv : list string) (path_a path_b : string)
    (A B : table) (row0 : dict) (w : world) :
  extract_files_from_args resolve is_file argv = [path_a; path_b] →
  extract_data_from_files extract_data_from_xlsx extract_data_from_csv
                          (path_a, path_b) = Ok (A, B) →
  A !! 0%nat = Some row0 →
  B ≠ [] →
  has_columns (dict_keys row0) A →
  has_columns (dict_keys row0) B →
  (∀ row, row ∈ A → ∃ r, r ∈ B ∧ rows_equal row r) →
  run_main argv w
  = (Raise IndexError,
     put_all w (default (Directory ∅ None) (out_dir w))
             [("out/tab_1.csv", table_csv A); ("out/tab_2.csv", table_csv B);
              ("out/tab_3.csv", [])])
  ∧ exit_status (run_main argv w).1 = 1%Z.
Proof.
  intros Hargs Hdata H0 HBne HA HB Hshared.
  assert (Hmain : run_main argv w
            = (Raise IndexError,
               put_all w (default (Directory ∅ None) (out_dir w))
                       [("out/tab_1.csv", table_csv A);
                        ("out/tab_2.csv", table_csv B);
                        ("out/tab_3.csv", [])])).
  { assert (Hcheck : check_table_structure_integrity set_iter (A, B) = Ok ()).
    { destruct A as [ | ra A']; [done | ]. injection H0 as ->.
      destruct B as [ | rb B']; [done | ].
      apply check_passes_iff_keys. intros k. symmetry.
      apply (proj1 (Forall_forall _ _) HB rb). left. }
    rewrite main_run, Hargs, Hdata, Hcheck. unfold pipeline_outcome. cbn zeta.
    rewrite (tabs_outcome_left_shared A B (dict_keys row0)); try done.
    - intros ->. done.
    - by apply extract_difference_nil_iff. }
  split; [exact Hmain | by rewrite Hmain].
Qed.


End RunProperties.

(** ** The spreadsheet reader *)

Lemma items_set_fresh k v items :
  k ∉ items.*1 → items_set k v items = items ++ [(k, v)].
Proof.
  induction items as [ | [k' v'] items IH]; intros Hk; [done | ].
  rewrite fmap_cons in Hk. apply not_elem_of_cons in Hk as [Hne Hk].
  cbn [items_set]. destruct (String.eqb_spec k k') as [-> | _]; [done | ].
  by rewrite IH.
Qed.

Lemma list_getitem_lookup {A : Type} (l : list A) (i : nat) (x : A) :
  l !! i = Some x → list_getitem l i = Ok x.
Proof. intros H. unfold list_getitem. by rewrite H. Qed.






Lemma list_getitem_None {A : Type} (l : list A) (i : nat) :
  l !! i = None → list_getitem l i = Raise IndexError.
Proof. intros H. unfold list_getitem. by rewrite H. Qed.





(** ** The row generator *)

Lemma lists_get_NoDup (dict_ : list (string * list value)) c l :
  NoDup dict_.*1 → (c, l) ∈ dict_ → lists_get c dict_ = Some l.
Proof.
  induction dict_ as [ | [c' l'] dict_ IH]; intros Hnd Hin.
  - by apply elem_of_nil in Hin.
  - rewrite fmap_cons in Hnd. apply NoDup_cons in Hnd as [Hc' Hnd].
    cbn [lists_get]. destruct (String.eqb_spec c c') as [-> | Hne].
    + apply elem_of_cons in Hin as [[= ->] | Hin]; [done | ].
      exfalso. apply Hc'. apply list_elem_of_fmap. by exists (c', l).
    + apply elem_of_cons in Hin as [[= -> ->] | Hin]; [done | by apply IH].
Qed.

Lemma lists_getitem_elem (dict_ : list (string * list value)) c l :
  NoDup dict_.*1 → (c, l) ∈ dict_ → lists_getitem dict_ c = Ok l.
Proof.
  intros Hnd Hin. unfold lists_getitem.
  by rewrite (lists_get_NoDup dict_ c l Hnd Hin).
Qed.

Lemma row_of_lists_loop (dict_ pre cols : list (string * list value))
    (i : nat) (acc : dict) :
  dict_ = pre ++ cols →
  NoDup dict_.*1 →
  dict_keys acc = pre.*1 →
  Forall (λ kl : string * list value, (i < length kl.2)%nat) cols →
  ∃ d, for_each (λ (row : dict) (column : string),
                   values ← lists_getitem dict_ column;
                   v ← list_getitem values i;
                   Ok (dict_setitem row column v))
                cols.*1 acc
       = Ok d
       ∧ dict_items d
         = dict_items acc
             ++ ((λ kl : string * list value,
                    (kl.1, default VNone (kl.2 !! i))) <$> cols).
Proof.
  intros Hdict Hnd. revert pre acc Hdict.
  induction cols as [ | [c l] cols IH]; intros pre acc Hdict Hacc Hlen.
  - exists acc. split; [done | ]. by rewrite app_nil_r.
  - apply Forall_cons in Hlen as [Hl Hlen]. simpl in Hl.
    rewrite fmap_cons. cbn [for_each fst].
    rewrite (lists_getitem_elem dict_ c l Hnd)
      by (rewrite Hdict; apply elem_of_app; right; left).
    cbn [mbind result_bind].
    destruct (lookup_lt_is_Some_2 l i Hl) as [v Hv].
    rewrite (list_getitem_lookup _ _ _ Hv). cbn [mbind result_bind].
    assert (Hfresh : c ∉ (dict_items acc).*1).
    { fold (dict_keys acc). rewrite Hacc. rewrite Hdict in Hnd.
      rewrite fmap_app, fmap_cons in Hnd.
      apply NoDup_app in Hnd as (_ & Hdisj & _).
      intros Hc. apply (Hdisj c Hc). left. }
    destruct (IH (pre ++ [(c, l)]) (dict_setitem acc c v))
      as (d & Hd & Hitems).
    + by rewrite <- app_assoc.
    + unfold dict_keys. cbn [dict_items dict_setitem].
      rewrite items_set_fresh by done. rewrite !fmap_app.
      by fold (dict_keys acc); rewrite Hacc.
    + done.
    + exists d. split; [exact Hd | ].
      rewrite Hitems. cbn [dict_items dict_setitem].
      rewrite items_set_fresh by done. rewrite fmap_cons, <- app_assoc.
      cbn [fst snd app]. by rewrite Hv.
Qed.

Lemma yield_each_seq_ok {B : Type} (body : nat → result B) (dflt : B)
    (s n : nat) :
  (∀ i, (s ≤ i < s + n)%nat → ∃ y, body i = Ok y) →
  yield_each body (seq s n)
  = ((λ i, match body i with Ok y => y | Raise _ => dflt end) <$> seq s n,
     None).
Proof.
  revert s. induction n as [ | n IH]; intros s H; [done | ].
  cbn [seq yield_each]. destruct (H s) as [y Hy]; [lia | ].
  rewrite IH by (intros i Hi; apply H; lia).
  rewrite fmap_cons. by rewrite Hy.
Qed.

(** X20: for a dict of lists without a list shorter than the first, the
    generator yields as many rows as the first list is long and then ends
    without an exception; the row of index [i] has the keys of the dict, in
    their order, each with the element of index [i] of its list.  What a
    longer list holds beyond that length is left out. *)
Theorem dict_of_lists_as_rows_rectangular
    (dict_ : list (string * list value)) (c0 : string) (l0 : list value) :
  dict_ !! 0%nat = Some (c0, l0) →
  NoDup dict_.*1 →
  Forall (λ kl : string * list value, (length l0 ≤ length kl.2)%nat) dict_ →
  (_dict_of_lists_as_rows dict_).2 = None
  ∧ length (_dict_of_lists_as_rows dict_).1 = length l0
  ∧ ∀ i row, (_dict_of_lists_as_rows dict_).1 !! i = Some row →
             dict_items row
             = (λ kl : string * list value,
                  (kl.1, default VNone (kl.2 !! i))) <$> dict_.
Proof.
  intros H0 Hnd Hlen.
  assert (Hrow : ∀ i, (i < length l0)%nat →
            ∃ d, row_of_lists dict_ dict_.*1 i = Ok d
                 ∧ dict_items d
                   = (λ kl : string * list value,
                        (kl.1, default VNone (kl.2 !! i))) <$> dict_).
  { intros i Hi.
    destruct (row_of_lists_loop dict_ [] dict_ i empty_dict eq_refl Hnd eq_refl)
      as (d & Hd & Hitems).
    - eapply Forall_impl; [exact Hlen | ]. intros kl Hkl. simpl in *. lia.
    - by exists d. }
  assert (Hrun : _dict_of_lists_as_rows dict_
                 = yield_each (row_of_lists dict_ dict_.*1)
                              (seq 0 (length l0))).
  { unfold _dict_of_lists_as_rows.
    destruct dict_ as [ | [c l] rest]; [done | ]. injection H0 as -> ->.
    cbn [fmap list_fmap fst list_getitem lookup list_lookup mbind result_bind].
    by rewrite (lists_getitem_elem _ c0 l0 Hnd) by left. }
  rewrite Hrun, (yield_each_seq_ok _ empty_dict).
  2: { intros i Hi. destruct (Hrow i) as (d & Hd & _); [lia | by exists d]. }
  cbn [fst snd]. split; [done | ].
  split; [by rewrite length_fmap, length_seq | ].
  intros i row Hi. apply list_lookup_fmap_Some in Hi as (j & -> & Hj).
  apply lookup_seq in Hj as [-> Hj]. simpl.
  destruct (Hrow i Hj) as (d & Hd & Hitems). by rewrite Hd.
Qed.

Lemma lists_get_None (dict_ : list (string * list value)) k :
  lists_get k dict_ = None → k ∉ dict_.*1.
Proof.
  induction dict_ as [ | [k' l'] dict_ IH]; intros H.
  - apply not_elem_of_nil.
  - cbn [lists_get] in H. rewrite fmap_cons.
    destruct (String.eqb_spec k k') as [Heq | Hne]; [done | ].
    apply not_elem_of_cons. split; [done | by apply IH].
Qed.

Lemma row_of_lists_exn (dict_ : list (string * list value))
    (columns : list string) (i : nat) (acc : dict) (e : exn) :
  columns ⊆ dict_.*1 →
  for_each (λ (row : dict) (column : string),
              values ← lists_getitem dict_ column;
              v ← list_getitem values i;
              Ok (dict_setitem row column v))
           columns acc
  = Raise e →
  e = IndexError.
Proof.
  revert acc. induction columns as [ | c columns IH]; intros acc Hsub; [done | ].
  cbn [for_each].
  destruct (lists_get c dict_) as [l | ] eqn:Hl.
  - assert (Hget : lists_getitem dict_ c = Ok l)
      by (unfold lists_getitem; by rewrite Hl).
    rewrite Hget. cbn [mbind result_bind].
    destruct (l !! i) as [v | ] eqn:Hv.
    + rewrite (list_getitem_lookup _ _ _ Hv). cbn [mbind result_bind].
      apply IH. intros k Hk. apply Hsub. by right.
    + rewrite (list_getitem_None _ _ Hv). by intros [= <-].
  - exfalso. apply (lists_get_None dict_ c Hl). apply Hsub. left.
Qed.

Lemma row_of_lists_short (dict_ : list (string * list value))
    (columns : list string) (i : nat) (acc : dict) c l :
  NoDup dict_.*1 →
  columns ⊆ dict_.*1 →
  (c, l) ∈ dict_ → c ∈ columns → (length l ≤ i)%nat →
  for_each (λ (row : dict) (column : string),
              values ← lists_getitem dict_ column;
              v ← list_getitem values i;
              Ok (dict_setitem row column v))
           columns acc
  = Raise IndexError.
Proof.
  intros Hnd. revert acc.
  induction columns as [ | c' columns IH]; intros acc Hsub Hin Hc Hlen.
  - by apply elem_of_nil in Hc.
  - destruct (for_each _ (c' :: columns) acc) as [d | e] eqn:Hrun.
    2: { f_equal. by eapply row_of_lists_exn. }
    exfalso. cbn [for_each] in Hrun.
    destruct (lists_getitem dict_ c') as [l' | e] eqn:Hl';
      cbn [mbind result_bind] in Hrun; [ | done].
    destruct (list_getitem l' i) as [v | e] eqn:Hv;
      cbn [mbind result_bind] in Hrun; [ | done].
    apply elem_of_cons in Hc as [<- | Hc].
    + rewrite (lists_getitem_elem dict_ c l Hnd Hin) in Hl'.
      injection Hl' as <-. unfold list_getitem in Hv.
      by rewrite (lookup_ge_None_2 l i) in Hv by lia.
    + rewrite (IH (dict_setitem acc c' v)) in Hrun; try done.
      intros k Hk. apply Hsub. by right.
Qed.

Lemma yield_each_seq_raise {B : Type} (body : nat → result B) (s n i : nat) :
  (∀ j e, body j = Raise e → e = IndexError) →
  body i = Raise IndexError →
  (s ≤ i < s + n)%nat →
  (yield_each body (seq s n)).2 = Some IndexError
  ∧ (length (yield_each body (seq s n)).1 ≤ i - s)%nat.
Proof.
  intros Hexn Hi. revert s. induction n as [ | n IH]; intros s Hs; [lia | ].
  cbn [seq yield_each]. destruct (body s) as [y | e] eqn:Hy.
  - assert (Hne : s ≠ i) by (intros ->; by rewrite Hi in Hy).
    destruct (IH (S s)) as [He Hlen]; [lia | ].
    destruct (yield_each body (seq (S s) n)) as [ys e'].
    cbn [fst snd] in *. split; [done | ]. simpl. lia.
  - rewrite (Hexn s e Hy). split; [done | simpl; lia].
Qed.

(** X21: when a list of the dict is shorter than the first, the generator
    ends with [IndexError], after it has yielded no more rows than that list
    is long. *)
Theorem dict_of_lists_as_rows_short_column
    (dict_ : list (string * list value)) (c0 c : string) (l0 l : list value) :
  dict_ !! 0%nat = Some (c0, l0) →
  NoDup dict_.*1 →
  (c, l) ∈ dict_ →
  (length l < length l0)%nat →
  (_dict_of_lists_as_rows dict_).2 = Some IndexError
  ∧ (length (_dict_of_lists_as_rows dict_).1 ≤ length l)%nat.
Proof.
  intros H0 Hnd Hin Hshort.
  assert (Hrun : _dict_of_lists_as_rows dict_
                 = yield_each (row_of_lists dict_ dict_.*1)
                              (seq 0 (length l0))).
  { unfold _dict_of_lists_as_rows.
    destruct dict_ as [ | [c' l'] rest]; [done | ]. injection H0 as -> ->.
    cbn [fmap list_fmap fst list_getitem lookup list_lookup mbind result_bind].
    by rewrite (lists_getitem_elem _ c0 l0 Hnd) by left. }
  rewrite Hrun.
  destruct (yield_each_seq_raise (row_of_lists dict_ dict_.*1)
              0 (length l0) (length l)) as [He Hlen].
  - intros j e. by apply row_of_lists_exn.
  - apply (row_of_lists_short dict_ dict_.*1 (length l) empty_dict c l);
      try done.
    apply list_elem_of_fmap. by exists (c, l).
  - lia.
  - split; [exact He | lia].
Qed.

(** * The further properties at concrete inputs *)

Lemma rows_in_any_column_order_witness :
  dict_eqb row_1x row_x1 = true
  ∧ dict_eqb row_x1 row_1x = true
  ∧ list_contains row_1x example_B = list_contains row_x1 example_B.
Proof.
  apply (rows_in_any_column_order row_1x row_x1 example_B).
  apply perm_swap.
Defined.

Lemma extract_common_self_witness :
  _extract_common_by_first_column example_A example_A
  = Ok (example_A, example_A).
Proof.
  apply (extract_common_self example_A row_1x "id" ["v"]).
  - reflexivity.
  - reflexivity.
  - exact example_A_columns.
Defined.

Lemma extract_common_missing_key_witness :
  _extract_common_by_first_column example_A [row_only_v]
  = Raise (KeyError "id").
Proof.
  apply (extract_common_missing_key example_A [row_only_v] row_1x row_1x
                                    row_only_v "id" ["v"]).
  - reflexivity.
  - reflexivity.
  - left.
  - right. intros H. apply list_elem_of_singleton in H. discriminate H.
Defined.

Lemma key_column_never_differs_witness :
  count_differing "id" (aligned_pairs "id" example_A example_B) = 0%nat
  ∧ ∃ (header : list string) (rows : csv_file),
      make_tab_5_analysis (example_A, example_B) fresh_world
      = (Ok (), with_csv fresh_world empty_out "out/tab_5.csv" (header :: rows))
      ∧ length rows = S (length (aligned_pairs "id" example_A example_B))
      ∧ Forall (λ row, row !! 2%nat = Some "0") rows.
Proof.
  apply (key_column_never_differs example_A example_B row_1x row_1x row_1x
                                  "id" ["v"] ["v"] fresh_world empty_out).
  - reflexivity.
  - reflexivity.
  - exact example_A_columns.
  - exact example_B_columns.
  - reflexivity.
  - reflexivity.
  - reflexivity.
Defined.

Lemma no_aligned_pair_witness :
  make_tab_5_analysis (example_ids [1; 2]%Z, example_ids [3; 4]%Z) fresh_world
  = (Raise IndexError, fresh_world).
Proof.
  apply (no_aligned_pair (example_ids [1; 2]%Z) (example_ids [3; 4]%Z)
                         (Dict [("id", VInt 1)] I) "id" []).
  - reflexivity.
  - reflexivity.
  - apply has_columns_same_keys. by repeat constructor.
  - apply has_columns_same_keys. by repeat constructor.
  - reflexivity.
Defined.

Lemma write_csv_table_witness :
  _write_csv "out/tab_1.csv" example_A fresh_world
  = (Ok (),
     with_csv fresh_world empty_out "out/tab_1.csv"
              [["id"; "v"]; ["1"; "x"]; ["2"; "y"]])
  ∧ length (table_csv example_A) = 3%nat.
Proof.
  apply (write_csv_table "out/tab_1.csv" example_A row_1x fresh_world
                         empty_out).
  - reflexivity.
  - apply Forall_cons_2; [by intros k Hk | ].
    apply Forall_cons_2; [by intros k Hk | apply Forall_nil_2].
  - reflexivity.
Defined.



Lemma wrong_number_of_files_witness :
  main id (λ _, true) read_A_B read_A_B elements ["a.csv"] (World None [])
  = (Ok 2%Z,
     World None ["Erreur: 2 fichiers requis en entrée (.xlsx, .csv)"])
  ∧ exit_status (main id (λ _, true) read_A_B read_A_B elements ["a.csv"]
                      (World None [])).1 = 2%Z.
Proof.
  apply (wrong_number_of_files id (λ _, true) read_A_B read_A_B elements
                               ["a.csv"] (World None [])).
  simpl. lia.
Defined.

Lemma extract_by_suffix_witness :
  extract read_A_B read_A_B "data/a.CSV"
  = Raise (KeyError "extract_data_from_CSV").
Proof.
  apply (extract_by_suffix read_A_B read_A_B "data/a.CSV").
  right. left.
Defined.

Lemma run_left_rows_all_shared_witness :
  exit_status (main id (λ _, true) (λ _, example_A) (λ _, example_A) elements
                    ["a.csv"; "b.csv"] (World None [])).1 = 1%Z.
Proof.
  apply (run_left_rows_all_shared id (λ _, true) (λ _, example_A)
           (λ _, example_A) elements ["a.csv"; "b.csv"] "a.csv" "b.csv"
           example_A example_A row_1x (World None [])).
  - reflexivity.
  - reflexivity.
  - reflexivity.
  - discriminate.
  - exact example_A_columns.
  - exact example_A_columns.
  - intros row Hrow. exists row. split; [exact Hrow | apply rows_equal_refl].
Defined.




Lemma dict_of_lists_as_rows_rectangular_witness :
  (_dict_of_lists_as_rows example_lists).2 = None
  ∧ length (_dict_of_lists_as_rows example_lists).1 = 2%nat
  ∧ ∀ i row, (_dict_of_lists_as_rows example_lists).1 !! i = Some row →
             dict_items row
             = (λ kl : string * list value,
                  (kl.1, default VNone (kl.2 !! i))) <$> example_lists.
Proof.
  apply (dict_of_lists_as_rows_rectangular example_lists "A"
                                           [VInt 1; VInt 2]).
  - reflexivity.
  - apply (bool_decide_unpack _). vm_compute. exact I.
  - repeat constructor; simpl; lia.
Defined.

Lemma dict_of_lists_as_rows_short_column_witness :
  (_dict_of_lists_as_rows example_short_lists).2 = Some IndexError
  ∧ (length (_dict_of_lists_as_rows example_short_lists).1 ≤ 1)%nat.
Proof.
  apply (dict_of_lists_as_rows_short_column example_short_lists "A" "B"
                                            [VInt 1; VInt 2] [VInt 3]).
  - reflexivity.
  - apply (bool_decide_unpack _). vm_compute. exact I.
  - right. left.
  - simpl. lia.
Defined.
